(** * video2dataset: dataloader transforms

    A shallow embedding of [video2dataset/dataloader/transform.py]:
    [VideoResizer], the temporal sampler returned by [video_transform],
    and [CutsAdder].

    Conventions.
    - Python [int]s are [Z]; Python/NumPy [float]s are the kernel's binary64
      [float]s, so [/], [*], [-] round exactly as IEEE 754 double precision does.
    - A sample is a Python [dict] with string keys: [gmap string value].
    - Raising is explicit: a computation returns [Ok v] or [Raise e].
    - The pseudo-random generator is threaded as explicit state. *)

From Stdlib Require Import ZArith Lia List Bool.
From Stdlib Require Import PrimFloat FloatOps SpecFloat.
From stdpp Require Import gmap strings list fin_maps pretty.

Local Open Scope Z_scope.

(** ** Python exceptions and results *)

Inductive exn : Type :=
| KeyError (key : string)
| AssertionError (msg : string)
| ValueError (msg : string)
| IndexError
| TypeError
| ZeroDivisionError
| OverflowError
| RuntimeError (msg : string)
| CvError.

Inductive pyresult (A : Type) : Type :=
| Ok (a : A)
| Raise (e : exn).
Arguments Ok {A} a.
Arguments Raise {A} e.

Definition rbind {A B : Type} (m : pyresult A) (k : A -> pyresult B) : pyresult B :=
  match m with
  | Ok a => k a
  | Raise e => Raise e
  end.

Fixpoint rmapM {A B : Type} (f : A -> pyresult B) (l : list A) : pyresult (list B) :=
  match l with
  | [] => Ok []
  | x :: r => rbind (f x) (fun y => rbind (rmapM f r) (fun ys => Ok (y :: ys)))
  end.

(** ** Numbers: Python [int] and IEEE binary64 *)

Module PyNum.

(** [float(z)] for a Python [int]: nearest binary64, ties to even. *)
Definition float_of_Z (z : Z) : float :=
  SF2Prim (binary_normalize prec emax z 0 false).

(** A Python [int] as an exact operand of a floating-point operation. *)
Definition spec_of_Z (z : Z) : spec_float :=
  match z with
  | Z0 => S754_zero false
  | Zpos p => S754_finite false p 0
  | Zneg p => S754_finite true p 0
  end.

(** [a / b] on two Python [int]s (true division), as CPython computes it.
    Operands below 2^53 in magnitude are converted exactly and divided as
    doubles; otherwise the exact quotient of the two integers is rounded once
    to the nearest binary64 (ties to even): a quotient too large for a float
    raises [OverflowError], one too small becomes zero. *)
Definition truediv (a b : Z) : pyresult float :=
  if b =? 0 then Raise ZeroDivisionError
  else if (Z.abs a <? 2 ^ 53) && (Z.abs b <? 2 ^ 53)
  then Ok (float_of_Z a / float_of_Z b)%float
  else
    match SFdiv prec emax (spec_of_Z a) (spec_of_Z b) with
    | S754_infinity _ => Raise OverflowError
    | q => Ok (SF2Prim q)
    end.

(** The conversion of a Python [int] that arithmetic with a float operand
    performs: [OverflowError] when the integer is too large for a float. *)
Definition int_to_float (z : Z) : pyresult float :=
  match binary_normalize prec emax z 0 false with
  | S754_infinity _ => Raise OverflowError
  | x => Ok (SF2Prim x)
  end.

(** Signed integer nearest to [m * 2^e] for [e < 0], ties to even. *)
Definition round_half_even_pos (m : positive) (e : Z) : Z :=
  if 0 <=? e then Z.pos m * 2 ^ e
  else
    let d := 2 ^ (- e) in
    let q := Z.pos m / d in
    let r := Z.pos m mod d in
    match (2 * r) ?= d with
    | Lt => q
    | Gt => q + 1
    | Eq => if Z.even q then q else q + 1
    end.

(** Python 3 [round(x)] on a float, no [ndigits]: an [int], halves to even. *)
Definition round (x : float) : pyresult Z :=
  match Prim2SF x with
  | S754_zero _ => Ok 0
  | S754_finite s m e =>
      let a := round_half_even_pos m e in
      Ok (if s then - a else a)
  | S754_infinity _ => Raise OverflowError
  | S754_nan => Raise (ValueError "cannot convert float NaN to integer")
  end.

(** [math.ceil(x)] on a float: an [int]. *)
Definition ceil (x : float) : pyresult Z :=
  match Prim2SF x with
  | S754_zero _ => Ok 0
  | S754_finite s m e =>
      if 0 <=? e then Ok ((if s then -1 else 1) * (Z.pos m * 2 ^ e))
      else
        let d := 2 ^ (- e) in
        if s then Ok (- (Z.pos m / d))
        else Ok (- ((- Z.pos m) / d))
  | S754_infinity _ => Raise OverflowError
  | S754_nan => Raise (ValueError "cannot convert float NaN to integer")
  end.

(** Conversion of a binary64 value to a narrower binary format
    ([prec] bits of precision, exponent bound [emax]); round to nearest even,
    overflow to infinity.  Every value of the narrower format is a binary64. *)
Definition cast_float (p em : Z) (x : float) : float :=
  match Prim2SF x with
  | S754_finite s m e => SF2Prim (binary_round p em s m e)
  | _ => x
  end.

Definition to_float32 : float -> float := cast_float 24 128.

(** torch's conversion of a double to half precision goes through single
    precision: two roundings, which can differ from one in the last place. *)
Definition to_float16 (x : float) : float := cast_float 11 16 (to_float32 x).

End PyNum.

(** ** Arrays, tensors and samples *)

(** Element types that occur in the pipeline.  NumPy and torch promote a mix of
    them to the widest one; on these four that is the maximum in the order
    below, and promotion leaves every value as it is. *)
Inductive dtype : Type := UInt8 | Float16 | Float32 | Float64.

Definition dtype_rank (d : dtype) : nat :=
  match d with UInt8 => 0 | Float16 => 1 | Float32 => 2 | Float64 => 3 end%nat.

Definition promote (a b : dtype) : dtype :=
  if (dtype_rank a <=? dtype_rank b)%nat then b else a.

#[global] Instance dtype_eq_dec : EqDecision dtype.
Proof. solve_decision. Defined.

(** Pixel data of one frame: rows, columns, channels (or any three axes). *)
Abbreviation pixels := (list (list (list float))).

(** One decoded frame: a NumPy array of shape (H, W, C). *)
Record ndarray : Type := mk_ndarray { a_dtype : dtype; a_data : pixels }.

(** A stack of frames along a leading axis; the trailing shape is kept
    explicitly because it exists even when there is no frame. *)
Record tensor : Type := mk_tensor {
  t_dtype : dtype;
  t_shape : nat * nat * nat;
  t_frames : list pixels
}.

(** The shape read off the nested lists.  An array with no row has no column
    to measure: its trailing axes read 0, whatever they were. *)
Definition shape3 (p : pixels) : nat * nat * nat :=
  match p with
  | [] => (0, 0, 0)%nat
  | row :: _ =>
      match row with
      | [] => (length p, 0, 0)%nat
      | px :: _ => (length p, length row, length px)
      end
  end.

Definition shape_eqb (s1 s2 : nat * nat * nat) : bool :=
  let '(a1, b1, c1) := s1 in
  let '(a2, b2, c2) := s2 in
  (a1 =? a2)%nat && (b1 =? b2)%nat && (c1 =? c2)%nat.

Definition map_pixels (f : float -> float) (p : pixels) : pixels :=
  map (map (map f)) p.

(** The first frame after the head whose shape differs from the head's, with
    its position in the list. *)
Fixpoint first_mismatch (sh0 : nat * nat * nat) (rest : list ndarray) (k : nat)
    : option (nat * (nat * nat * nat)) :=
  match rest with
  | [] => None
  | f :: r =>
      if shape_eqb (shape3 (a_data f)) sh0 then first_mismatch sh0 r (S k)
      else Some (k, shape3 (a_data f))
  end.

(** Stacking along a new leading axis, as [np.stack], [torch.stack] and
    [torch.cat] of items with a leading axis of length one do it: at least one
    array is needed, and all of one shape.  [empty_err] is what the library
    raises for no array, [mismatch_err sh0 k shk] what it raises when entry
    [k] has shape [shk] and entry 0 has [sh0]. *)
Definition stack (empty_err : exn)
    (mismatch_err : nat * nat * nat -> nat -> nat * nat * nat -> exn)
    (frames : list ndarray) : pyresult tensor :=
  match frames with
  | [] => Raise empty_err
  | f0 :: rest =>
      let sh := shape3 (a_data f0) in
      match first_mismatch sh rest 1 with
      | None =>
          Ok {| t_dtype := fold_left promote (map a_dtype rest) (a_dtype f0);
                t_shape := sh;
                t_frames := map a_data frames |}
      | Some (k, shk) => Raise (mismatch_err sh k shk)
      end
  end.

(** A shape as the libraries print it: [[4, 6, 1]]. *)
Definition show_shape (sh : nat * nat * nat) : string :=
  let '(a, b, c) := sh in
  "[" +:+ pretty a +:+ ", " +:+ pretty b +:+ ", " +:+ pretty c +:+ "]".

Definition np_stack : list ndarray -> pyresult tensor :=
  stack (ValueError "need at least one array to stack")
        (fun _ _ _ => ValueError "all input arrays must have the same shape").

Definition torch_stack : list ndarray -> pyresult tensor :=
  stack (RuntimeError "stack expects a non-empty TensorList")
        (fun sh0 k shk =>
           RuntimeError ("stack expects each tensor to be equal size, but got "
                         +:+ show_shape sh0 +:+ " at entry 0 and "
                         +:+ show_shape shk +:+ " at entry " +:+ pretty k)).

(** Iterating over a tensor, or indexing its leading axis, yields its frames. *)
Definition unstack (t : tensor) : list ndarray :=
  map (mk_ndarray (t_dtype t)) (t_frames t).

(** [tensor.to(dtype)] with a rounding function for the elements. *)
Definition tensor_to (d : dtype) (cast : float -> float) (t : tensor) : tensor :=
  {| t_dtype := d; t_shape := t_shape t; t_frames := map (map_pixels cast) (t_frames t) |}.

(** Values stored in a sample. *)
#[warnings="-register-all"]
Inductive value : Type :=
| VList (frames : list ndarray)      (* a Python list of NumPy frames *)
| VTensor (t : tensor)               (* an array / tensor of stacked frames *)
| VInts (xs : list Z)                (* a 1-d container of integers (metadata) *)
| VDict (d : gmap string value)      (* a nested mapping *)
| VOther (payload : string).         (* anything else, opaque *)

Abbreviation sample := (gmap string value).

(** ** Python slicing *)

(** Bound of a slice with positive step on a sequence of length [n]:
    a negative bound counts from the end, then it is clamped to [0, n]. *)
Definition slice_bound (n : nat) (i : Z) : nat :=
  if i <? 0 then Z.to_nat (Z.max (i + Z.of_nat n) 0)
  else Nat.min (Z.to_nat i) n.

(** [l[a:b]] *)
Definition py_slice {A : Type} (a b : Z) (l : list A) : list A :=
  let lo := slice_bound (length l) a in
  let hi := slice_bound (length l) b in
  take (hi - lo) (drop lo l).

(** [l[:b]] *)
Definition py_slice_to {A : Type} (b : Z) (l : list A) : list A :=
  take (slice_bound (length l) b) l.

(** ** The pseudo-random generator *)

(** Modelled from the spec: [PRNGMixin] lives in [video_decode.py], which is not
    among the sources.  The spec asks for a seeded, per-instance generator
    "offering uniform random integer in [lo, hi) draws"; the caller's
    [except ValueError] shows that a draw on an empty range raises.  A generator
    is therefore a state type with a draw that stays in range; nothing else is
    assumed about the values it produces. *)
Record Prng : Type := mk_prng {
  prng_state : Type;
  prng_draw : Z -> Z -> prng_state -> Z * prng_state;
  prng_draw_range : forall lo hi st,
    lo < hi -> lo <= fst (prng_draw lo hi st) < hi
}.

(** Computations over a piece of state that may raise: [self.prng] is state of
    the resizer, the global torch generator is state of the frame pipeline. *)
Definition M (S A : Type) : Type := S -> pyresult A * S.

Definition ret {S A} (a : A) : M S A := fun st => (Ok a, st).
Definition throw {S A} (e : exn) : M S A := fun st => (Raise e, st).
Definition lift {S A} (r : pyresult A) : M S A := fun st => (r, st).
Definition bind {S A B} (m : M S A) (k : A -> M S B) : M S B :=
  fun st =>
    match m st with
    | (Ok a, st') => k a st'
    | (Raise e, st') => (Raise e, st')
    end.

Declare Scope py_scope.
Delimit Scope py_scope with py.
Notation "x <- m ;; k" := (bind m (fun x => k))
  (at level 100, m at next level, right associativity) : py_scope.
Notation "x <~ m ;; k" := (rbind m (fun x => k))
  (at level 100, m at next level, right associativity) : py_scope.

Fixpoint mapM {S A B} (f : A -> M S B) (l : list A) : M S (list B) :=
  match l with
  | [] => ret []
  | x :: r => (y <- f x ;; ys <- mapM f r ;; ret (y :: ys))%py
  end.

(** [self.prng.randint(low, high, 1).item()] *)
Definition randint (G : Prng) (low high : Z) : M (prng_state G) Z :=
  fun st =>
    if high <=? low then (Raise (ValueError "low >= high"), st)
    else let '(v, st') := prng_draw G low high st in (Ok v, st').

(** ** VideoResizer *)

(** A size given at construction: one [int] or a pair [h, w]. *)
Inductive size_cfg : Type :=
| SizeInt (s : Z)
| SizePair (h w : Z).

Record VideoResizer : Type := mk_VideoResizer {
  key : string;
  height_key : string;
  width_key : string;
  resize_size : option size_cfg;      (* resize size as [h,w], or an int *)
  crop_size : option (Z * Z);         (* crop size as [h,w] *)
  random_crop : bool
}.

(** [VideoResizer.__init__]; the messages it prints are not modelled. *)
Definition VideoResizer_init (size crop : option size_cfg) (random_crop_arg : bool)
    (key width_key height_key : string) : VideoResizer :=
  let crop_size :=
    match crop with
    | Some (SizeInt c) => Some (c, c)
    | Some (SizePair ch cw) => Some (ch, cw)
    | None => None
    end in
  {| key := key;
     height_key := height_key;
     width_key := width_key;
     resize_size := size;
     crop_size := crop_size;
     random_crop := random_crop_arg && bool_decide (crop_size <> None) |}.

(** [math.ceil(c / 2)] and [int(round(c / 2))] on an [int] [c]. *)
Definition ceil_half (c : Z) : pyresult Z :=
  (q <~ PyNum.truediv c 2 ;; PyNum.ceil q)%py.
Definition round_half (c : Z) : pyresult Z :=
  (q <~ PyNum.truediv c 2 ;; PyNum.round q)%py.

Definition assert_msg : string := "Resize size must be greater or equal than crop_size".

Section Resizer.

Variable G : Prng.

(** OpenCV's [cv2.resize(frame, (width, height), interpolation=INTER_LANCZOS4)],
    an external primitive: any function of the frame and the target size. *)
Variable cv2_resize : ndarray -> Z * Z -> pyresult ndarray.

Variable self : VideoResizer.

(** Upper sampling bound of one axis: [max = dim - min], moved up by one
    (but not past [dim]) when the range would be empty because [min = max]. *)
Definition upper_bound (min_c dim : Z) : Z :=
  let max_c := dim - min_c in
  if min_c =? max_c then Z.min (max_c + 1) dim else max_c.

(** [get_rand_reference]; the handler around the two draws prints a hint and
    raises the same [ValueError] again, so the error passes through. *)
Definition get_rand_reference (resize : option (Z * Z)) (h w : Z) : M (prng_state G) (Z * Z) :=
  match crop_size self with
  | None => throw TypeError
  | Some (crop_h, crop_w) =>
      if match resize with
         | None => true
         | Some (rh, rw) => (crop_h <=? rh) && (crop_w <=? rw)
         end
      then
        (min_x <- lift (ceil_half crop_w) ;;
         let max_x := upper_bound min_x w in
         min_y <- lift (ceil_half crop_h) ;;
         let max_y := upper_bound min_y h in
         x <- randint G min_x max_x ;;
         y <- randint G min_y max_y ;;
         ret (y, x))%py
      else throw (AssertionError assert_msg)
  end.

Definition get_resize_size (frame : ndarray) (orig_h orig_w : Z)
    : pyresult (option (Z * Z) * (Z * Z)) :=
  match resize_size self with
  | Some (SizeInt s) =>
      (f <~ PyNum.truediv s (Z.min orig_h orig_w) ;;
       fh <~ PyNum.int_to_float orig_h ;;
       rh <~ PyNum.round (fh * f)%float ;;
       fw <~ PyNum.int_to_float orig_w ;;
       rw <~ PyNum.round (fw * f)%float ;;
       Ok (Some (rh, rw), (rh, rw)))%py
  | Some (SizePair rh rw) => Ok (Some (rh, rw), (rh, rw))
  | None =>
      let '(fh, fw, _) := shape3 (a_data frame) in
      Ok (None, (Z.of_nat fh, Z.of_nat fw))
  end.

Definition get_reference_frame (resize : option (Z * Z)) (h w : Z) : M (prng_state G) (Z * Z) :=
  if random_crop self then get_rand_reference resize h w
  else ret (h / 2, w / 2).

(** [frame.astype(float) / 127.5 - 1.] on one element. *)
Definition rescale (v : float) : float := (v / 127.5 - 1)%float.

(** [frame[y0 : y0 + ch, x0 : x0 + cw]] *)
Definition crop_window (y0 x0 ch cw : Z) (frame : ndarray) : ndarray :=
  {| a_dtype := a_dtype frame;
     a_data := map (py_slice x0 (x0 + cw)) (py_slice y0 (y0 + ch) (a_data frame)) |}.

(** [frame = cv2.resize(frame, tuple(reversed(resize_size)), ...)] when a
    resize size is set. *)
Definition resize_step (resize : option (Z * Z)) (frame : ndarray) : pyresult ndarray :=
  match resize with
  | Some (rh, rw) => cv2_resize frame (rw, rh)
  | None => Ok frame
  end.

(** The crop window around the reference point when a crop size is set. *)
Definition crop_step (reference : Z * Z) (frame : ndarray) : pyresult ndarray :=
  match crop_size self with
  | Some (crop_h, crop_w) =>
      (rx <~ round_half crop_w ;;
       let x_ := snd reference - rx in
       ry <~ round_half crop_h ;;
       let y_ := fst reference - ry in
       Ok (crop_window y_ x_ crop_h crop_w frame))%py
  | None => Ok frame
  end.

(** [frame.astype(float) / 127.5 - 1.] on the whole frame. *)
Definition rescale_step (frame : ndarray) : ndarray :=
  {| a_dtype := Float64; a_data := map_pixels rescale (a_data frame) |}.

(** The body of the loop over the frames, for one frame. *)
Definition transform_frame (resize : option (Z * Z)) (reference : Z * Z)
    (frame : ndarray) : pyresult ndarray :=
  (frame <~ resize_step resize frame ;;
   frame <~ crop_step reference frame ;;
   Ok (rescale_step frame))%py.

(** [for i, frame in enumerate(frames): ...; result.append(frame)] *)
Fixpoint frames_loop (resize : option (Z * Z)) (reference : Z * Z)
    (frames : list ndarray) (result : list ndarray) : pyresult (list ndarray) :=
  match frames with
  | [] => Ok result
  | frame :: rest =>
      (out <~ transform_frame resize reference frame ;;
       frames_loop resize reference rest (result ++ [out]))%py
  end.

(** [data[k]] on the sample. *)
Definition getitem (data : sample) (k : string) : pyresult value :=
  match data !! k with
  | Some v => Ok v
  | None => Raise (KeyError k)
  end.

(** [data[k][0].item()] for a metadata entry; entries of another kind are
    outside the data model and are rejected. *)
Definition first_item (v : value) : pyresult Z :=
  match v with
  | VInts (x :: _) => Ok x
  | VInts [] => Raise IndexError
  | _ => Raise TypeError
  end.

(** The frames of a video value, as iteration and [frames[0]] see them. *)
Definition frames_of (v : value) : pyresult (list ndarray) :=
  match v with
  | VList fs => Ok fs
  | VTensor t => Ok (unstack t)
  | _ => Raise TypeError
  end.

Definition first_frame (frames : list ndarray) : pyresult ndarray :=
  match frames with
  | f :: _ => Ok f
  | [] => Raise IndexError
  end.

Definition VideoResizer_call (data : sample) : M (prng_state G) sample :=
  if bool_decide (crop_size self = None) && bool_decide (resize_size self = None)
  then
    (v <- lift (getitem data (key self)) ;;
     match v with
     | VList fs =>
         t <- lift (np_stack fs) ;;
         ret (<[key self := VTensor t]> data)
     | _ => ret data
     end)%py
  else
    match data !! key self with
    | None => throw (KeyError ("Specified key " +:+ key self +:+ " not in data"))
    | Some video =>
        (hv <- lift (getitem data (height_key self)) ;;
         orig_h <- lift (first_item hv) ;;
         wv <- lift (getitem data (width_key self)) ;;
         orig_w <- lift (first_item wv) ;;
         frames <- lift (frames_of video) ;;
         frame0 <- lift (first_frame frames) ;;
         sz <- lift (get_resize_size frame0 orig_h orig_w) ;;
         let '(resize, (h, w)) := sz in
         reference <- get_reference_frame resize h w ;;
         result <- lift (frames_loop resize reference frames []) ;;
         t <- lift (torch_stack result) ;;
         ret (<[key self := VTensor (tensor_to Float16 PyNum.to_float16 t)]> data))%py
    end.

End Resizer.

(** ** video_transform: temporal sampling and the per-frame pipeline *)

(** The torchvision operations that [video_transform] composes, as data. *)
Inductive interpolation : Type := BICUBIC.

Inductive transform : Type :=
| ToPILImage
| RandomResizedCrop (size : Z) (scale : float * float) (interp : interpolation)
| Resize (size : Z) (interp : interpolation)
| CenterCrop (size : Z)
| convert_to_rgb
| ToTensor
| Normalize (mean std : list (option float)).

(** A mean or a standard deviation as the caller may pass it. *)
Inductive stat_cfg : Type :=
| StatScalar (x : float)
| StatTuple (xs : list float).

(** Python truth value of an optional statistic ([x or default]). *)
Definition stat_truthy (c : option stat_cfg) : bool :=
  match c with
  | None => false
  | Some (StatScalar x) => negb (x =? 0)%float
  | Some (StatTuple xs) => negb (bool_decide (xs = []))
  end.

(** [c or default], then a value that is no list or tuple repeated three times. *)
Definition stat_triple (c : option stat_cfg) (default : option (list float))
    : list (option float) :=
  if stat_truthy c then
    match c with
    | Some (StatTuple xs) => map Some xs
    | Some (StatScalar x) => [Some x; Some x; Some x]
    | None => [None; None; None]
    end
  else
    match default with
    | Some xs => map Some xs
    | None => [None; None; None]
    end.

(** [video[::step]] on a tensor: indices 0, step, 2*step, ... *)
Fixpoint every_nth_from {A : Type} (skip step : nat) (l : list A) : list A :=
  match l with
  | [] => []
  | x :: r =>
      match skip with
      | O => x :: every_nth_from (step - 1) step r
      | S k => every_nth_from k step r
      end
  end.

Definition slice_step {A : Type} (step : Z) (l : list A) : pyresult (list A) :=
  if step =? 0 then Raise (ValueError "slice step cannot be zero")
  else if step <? 0 then Raise (ValueError "step must be greater than zero")
  else Ok (every_nth_from 0 (Z.to_nat step) l).

(** One frame (H, W, C) with its axes permuted to (C, H, W). *)
Definition hwc_to_chw (channels : nat) (p : pixels) : pixels :=
  map (fun k => map (map (fun px => nth k px 0%float)) p) (seq 0 channels).

(** [video.permute(0, 3, 1, 2)] *)
Definition permute_0312 (t : tensor) : tensor :=
  let '(h, w, c) := t_shape t in
  {| t_dtype := t_dtype t;
     t_shape := (c, h, w);
     t_frames := map (hwc_to_chw c) (t_frames t) |}.

(** One all-zero frame of the given shape. *)
Definition zeros3 (sh : nat * nat * nat) : pixels :=
  let '(a, b, c) := sh in
  replicate a (replicate b (replicate c 0%float)).

(** [padded = torch.zeros(n, *video.shape[1:]); padded[:len(video)] = video]:
    a float32 tensor; the copied frames are converted to its element type. *)
Definition zero_pad (n : Z) (t : tensor) : tensor :=
  {| t_dtype := Float32;
     t_shape := t_shape t;
     t_frames := map (map_pixels PyNum.to_float32) (t_frames t)
                 ++ replicate (Z.to_nat n - length (t_frames t)) (zeros3 (t_shape t)) |}.

(** [frame.float()] *)
Definition frame_float (f : ndarray) : ndarray :=
  {| a_dtype := Float32; a_data := map_pixels PyNum.to_float32 (a_data f) |}.

(** The first axis on which two shapes differ: the sizes there. *)
Definition first_difference (sh0 shk : nat * nat * nat) : nat * nat :=
  let '(a0, b0, c0) := sh0 in
  let '(ak, bk, ck) := shk in
  if negb (a0 =? ak)%nat then (a0, ak)
  else if negb (b0 =? bk)%nat then (b0, bk)
  else (c0, ck).

(** [torch.cat([x[None, ...] for x in outs])]: every item gets a leading axis
    of length one, so concatenating them is stacking the items. *)
Definition torch_cat_unsqueezed (outs : list ndarray) : pyresult tensor :=
  stack (RuntimeError "torch.cat(): expected a non-empty list of Tensors")
        (fun sh0 k shk =>
           let '(expected, got) := first_difference sh0 shk in
           RuntimeError ("Sizes of tensors must match except in dimension 0. Expected size "
                         +:+ pretty expected +:+ " but got size " +:+ pretty got
                         +:+ " for tensor number " +:+ pretty k +:+ " in the list."))
        outs.

(** torchvision, an external library.  Each operation is any function of the
    image that may use torch's global generator (the state) and may raise.
    One fact about [RandomResizedCrop] is taken from the library: to choose the
    area of the crop it first draws [torch.empty(1).uniform_(scale[0], scale[1])],
    and torch refuses a range whose lower end lies above its upper end. *)
Record Torchvision : Type := mk_Torchvision {
  torch_rng : Type;
  tv_call : transform -> ndarray -> M torch_rng ndarray;
  tv_uniform_range : forall size lo hi interp img st,
    (hi <? lo)%float = true ->
    exists e st', tv_call (RandomResizedCrop size (lo, hi) interp) img st = (Raise e, st')
}.

(** [Compose(transforms)(img)]: the operations one after the other. *)
Fixpoint Compose (TV : Torchvision) (ts : list transform) (img : ndarray)
    : M (torch_rng TV) ndarray :=
  match ts with
  | [] => ret img
  | t :: rest => (img <- tv_call TV t img ;; Compose TV rest img)%py
  end.

Section Sampler.

Variable TV : Torchvision.

(** [open_clip.constants]; [None] when the import fails. *)
Variable OPENAI_DATASET_MEAN OPENAI_DATASET_STD : option (list float).

Variable frame_size n_frames take_every_nth : Z.
Variable is_train : bool.
Variable frame_mean frame_std : option stat_cfg.

#[warnings="-inexact-float"] Definition transforms : list transform :=
  let normalize :=
    Normalize (stat_triple frame_mean OPENAI_DATASET_MEAN)
              (stat_triple frame_std OPENAI_DATASET_STD) in
  if is_train then
    [ToPILImage;
     RandomResizedCrop frame_size (0.9, 0.1)%float BICUBIC;
     convert_to_rgb;
     ToTensor;
     normalize]
  else
    [ToPILImage;
     Resize frame_size BICUBIC;
     CenterCrop frame_size;
     convert_to_rgb;
     ToTensor;
     normalize].

Definition frame_transform : ndarray -> M (torch_rng TV) ndarray := Compose TV transforms.

(** The frames the pipeline is run on: permuted, subsampled, truncated and
    padded; everything in [apply_frame_transform] before its last line. *)
Definition sampled_video (video : tensor) : pyresult tensor :=
  (let video := permute_0312 video in
   frames <~ slice_step take_every_nth (t_frames video) ;;
   let video := mk_tensor (t_dtype video) (t_shape video)
                          (py_slice_to n_frames frames) in
   Ok (if Z.of_nat (length (t_frames video)) <? n_frames
       then zero_pad n_frames video
       else video))%py.

(** The function [video_transform] returns. *)
Definition apply_frame_transform (sample3 : tensor * value * value)
    : M (torch_rng TV) tensor :=
  let '(video, _, _) := sample3 in
  (video <- lift (sampled_video video) ;;
   outs <- mapM (fun frame => frame_transform (frame_float frame)) (unstack video) ;;
   lift (torch_cat_unsqueezed outs))%py.

End Sampler.

(** The frames kept by striding and truncation, before any padding. *)
Definition selected_frames (n_frames take_every_nth : Z) (video : tensor) : list pixels :=
  take (Z.to_nat n_frames)
       (every_nth_from 0 (Z.to_nat take_every_nth) (t_frames (permute_0312 video))).

(** ** CutsAdder *)

Record CutsAdder : Type := mk_CutsAdder {
  cuts_key : string;
  video_key : string
}.

Definition CutsAdder_init (cuts_key : string) (video_key : string) : CutsAdder :=
  {| cuts_key := cuts_key; video_key := video_key |}.

(** The assertion message; the double quotes it puts around the key are left out. *)
Definition missing_msg (k : string) : string :=
  "no field with key " +:+ k +:+ " in sample, but this is required.".

Definition CutsAdder_call (self : CutsAdder) (smp : sample) : pyresult sample :=
  match smp !! cuts_key self with
  | None => Raise (AssertionError (missing_msg (cuts_key self)))
  | Some cuts =>
      match smp !! video_key self with
      | None => Raise (AssertionError (missing_msg (video_key self)))
      | Some video =>
          (* sample[video_key] = {video_key: sample[video_key], cuts_key: sample[cuts_key]} *)
          let nested : gmap string value :=
            <[cuts_key self := cuts]> (<[video_key self := video]> ∅) in
          let smp := <[video_key self := VDict nested]> smp in
          (* del sample[video_key] *)
          match smp !! video_key self with
          | None => Raise (KeyError (video_key self))
          | Some _ => Ok (delete (video_key self) smp)
          end
      end
  end.

(** ** Concrete collaborators for the examples *)

(** A linear congruential generator as one instance of [Prng]. *)
Definition lcg_next (st : Z) : Z := (st * 1103515245 + 12345) mod 2147483648.

Definition lcg_draw (lo hi : Z) (st : Z) : Z * Z :=
  let st' := lcg_next st in (lo + st' mod (hi - lo), st').

Lemma lcg_draw_range (lo hi st : Z) : lo < hi -> lo <= fst (lcg_draw lo hi st) < hi.
Proof.
  intros Hlt. unfold lcg_draw. cbn [fst].
  pose proof (Z.mod_pos_bound (lcg_next st) (hi - lo)). lia.
Qed.

Definition lcg : Prng :=
  {| prng_state := Z; prng_draw := lcg_draw; prng_draw_range := lcg_draw_range |}.

(** Nearest-neighbour resampling, standing in for OpenCV in the examples. *)
Definition nearest_resize (frame : ndarray) (dsize : Z * Z) : pyresult ndarray :=
  let '(w, h) := dsize in
  let '(fh, fw, _) := shape3 (a_data frame) in
  if (w <=? 0) || (h <=? 0) || (fh =? 0)%nat || (fw =? 0)%nat then Raise CvError
  else
    let pick {A} (n : Z) (src : list A) (d : A) : list A :=
      map (fun i => nth (Z.to_nat (Z.of_nat i * Z.of_nat (length src) / n)) src d)
          (seq 0 (Z.to_nat n)) in
    Ok {| a_dtype := a_dtype frame;
          a_data := map (fun row => pick w row []) (pick h (a_data frame) []) |}.

(** A frame of one channel whose pixel at row [i], column [j] is [base + 10*i + j]. *)
Definition ramp_frame (h w : nat) (base : Z) : ndarray :=
  {| a_dtype := UInt8;
     a_data := map (fun i => map (fun j => [PyNum.float_of_Z (base + 10 * Z.of_nat i + Z.of_nat j)])
                                 (seq 0 w))
                   (seq 0 h) |}.

(** Operations that leave the image alone, standing in for torchvision in
    the examples; [RandomResizedCrop] checks its range as torch does (the text
    of torch's message, which prints the two bounds, is not reproduced). *)
Definition plain_call (t : transform) (img : ndarray) : M unit ndarray :=
  match t with
  | RandomResizedCrop _ (lo, hi) _ =>
      if (hi <? lo)%float
      then throw (RuntimeError "uniform_ expects to return a [from, to) range")
      else ret img
  | _ => ret img
  end.

Lemma plain_call_uniform_range (size : Z) (lo hi : float) (interp : interpolation)
    (img : ndarray) (st : unit) :
  (hi <? lo)%float = true ->
  exists e st', plain_call (RandomResizedCrop size (lo, hi) interp) img st = (Raise e, st').
Proof. intros H. cbn [plain_call]. rewrite H. eexists _, _. reflexivity. Qed.

Definition plain_torchvision : Torchvision :=
  {| torch_rng := unit; tv_call := plain_call; tv_uniform_range := plain_call_uniform_range |}.

(** A resizer with a scalar resize size and nothing else configured. *)
Definition scalar_resizer (S : Z) : VideoResizer :=
  mk_VideoResizer "mp4" "original_height" "original_width" (Some (SizeInt S)) None false.

(** Sample inputs for the examples. *)
Definition demo_frames : list ndarray := [ramp_frame 4 6 0; ramp_frame 4 6 100].

Definition demo_data : sample :=
  <["mp4" := VList demo_frames]>
  (<["original_height" := VInts [4]]> (<["original_width" := VInts [6]]> ∅)).

(** [VideoResizer(size=4, crop_size=2, random_crop=True)] *)
Definition demo_self : VideoResizer :=
  VideoResizer_init (Some (SizeInt 4)) (Some (SizeInt 2)) true
                    "mp4" "original_width" "original_height".

Definition demo_tensor : tensor :=
  {| t_dtype := Float16;
     t_shape := (2, 2, 1)%nat;
     t_frames :=
       [[[[(-0.92138671875)%float]; [(-0.91357421875)%float]];
         [[(-0.84326171875)%float]; [(-0.83544921875)%float]]];
        [[[(-0.13720703125)%float]; [(-0.12939453125)%float]];
         [[(-0.058837890625)%float]; [(-0.050994873046875)%float]]]] |}.

(** [VideoResizer(size=2, crop_size=2, random_crop=True)]: on the 4 x 6 frames
    of [demo_data] the resize size is (2, 3), half the frame. *)
Definition halving_self : VideoResizer :=
  VideoResizer_init (Some (SizeInt 2)) (Some (SizeInt 2)) true
                    "mp4" "original_width" "original_height".

Definition halving_tensor : tensor :=
  {| t_dtype := Float16;
     t_shape := (2, 2, 1)%nat;
     t_frames :=
       [[[[(-1)%float]; [(-0.984375)%float]];
         [[(-0.84326171875)%float]; [(-0.82763671875)%float]]];
        [[[(-0.2156982421875)%float]; [(-0.199951171875)%float]];
         [[(-0.058837890625)%float]; [(-0.04315185546875)%float]]]] |}.

(** [VideoResizer()] with nothing configured. *)
Definition plain_self : VideoResizer :=
  VideoResizer_init None None true "mp4" "original_width" "original_height".

(** [VideoResizer(size=(4, 4), crop_size=(6, 6), random_crop=...)]: the crop
    size exceeds the resize size on both axes. *)
Definition oversize_self (random : bool) : VideoResizer :=
  VideoResizer_init (Some (SizePair 4 4)) (Some (SizePair 6 6)) random
                    "mp4" "original_width" "original_height".

Definition one_frame_data : sample :=
  <["mp4" := VList [ramp_frame 4 4 0]]>
  (<["original_height" := VInts [4]]> (<["original_width" := VInts [4]]> ∅)).

(** [VideoResizer(crop_size=(4, 6), random_crop=True)] on 4 x 6 frames: the
    crop fills both axes, the degenerate case of the sampling range. *)
Definition full_crop_self : VideoResizer :=
  VideoResizer_init None (Some (SizePair 4 6)) true
                    "mp4" "original_width" "original_height".

(** A clip of three 2 x 2 frames with one channel, and one of twenty. *)
Definition clip3 : tensor :=
  mk_tensor UInt8 (2, 2, 1)%nat
            (map a_data [ramp_frame 2 2 1; ramp_frame 2 2 101; ramp_frame 2 2 201]).

Definition clip20 : tensor :=
  mk_tensor UInt8 (1, 1, 1)%nat
            (map (fun i => a_data (ramp_frame 1 1 (Z.of_nat i))) (seq 0 20)).

Definition cuts_sample : sample :=
  <["mp4" := VOther "frames"]> (<["cuts" := VOther "0-10"]> ∅).

(** A check of [P] on every integer from 0 below [n], by evaluation. *)
Definition all_below (n : Z) (P : Z -> bool) : bool :=
  forallb (fun i => P (Z.of_nat i)) (seq 0 (Z.to_nat n)).

(** ** Facts about the result and state monads *)

Lemma rmapM_Forall2 {A B : Type} (f : A -> pyresult B) (l : list A) (outs : list B) :
  rmapM f l = Ok outs <-> Forall2 (fun x y => f x = Ok y) l outs.
Proof.
  revert outs. induction l as [|x r IH]; intros outs; simpl.
  - split.
    + intros [= <-]. constructor.
    + intros H. inversion H. reflexivity.
  - split.
    + destruct (f x) as [y|e] eqn:Hx; simpl; [|discriminate].
      destruct (rmapM f r) as [ys|e] eqn:Hr; simpl; [|discriminate].
      intros [= <-]. constructor; [exact Hx | apply IH; reflexivity].
    + intros H. inversion H as [|x' y r' ys Hx Hr]; subst.
      rewrite Hx. simpl. apply IH in Hr. rewrite Hr. reflexivity.
Qed.

Lemma rmapM_length {A B : Type} (f : A -> pyresult B) (l : list A) (outs : list B) :
  rmapM f l = Ok outs -> length outs = length l.
Proof.
  intros H. apply rmapM_Forall2 in H.
  symmetry. eapply Forall2_length. exact H.
Qed.

Lemma lift_state {S A : Type} (r : pyresult A) (st : S) : snd (lift r st) = st.
Proof. reflexivity. Qed.

Lemma bind_lift {S A B : Type} (r : pyresult A) (k : A -> M S B) (st : S) :
  bind (lift r) k st = match r with Ok a => k a st | Raise e => (Raise e, st) end.
Proof. unfold bind, lift. destruct r; reflexivity. Qed.

Lemma stack_frames (err : exn) (mis : nat * nat * nat -> nat -> nat * nat * nat -> exn)
    (fs : list ndarray) (t : tensor) :
  stack err mis fs = Ok t -> t_frames t = map a_data fs.
Proof.
  unfold stack. destruct fs as [|f0 rest]; [discriminate|].
  destruct (first_mismatch _ rest 1) as [[k shk]|]; [discriminate|].
  intros [= <-]. reflexivity.
Qed.

Lemma stack_nonempty (err : exn) (mis : nat * nat * nat -> nat -> nat * nat * nat -> exn)
    (fs : list ndarray) (t : tensor) :
  stack err mis fs = Ok t -> fs <> [].
Proof. destruct fs; [discriminate | discriminate]. Qed.

Lemma shape_eqb_eq (s1 s2 : nat * nat * nat) : shape_eqb s1 s2 = true <-> s1 = s2.
Proof.
  destruct s1 as [[a1 b1] c1], s2 as [[a2 b2] c2]. cbn [shape_eqb].
  rewrite !andb_true_iff, !Nat.eqb_eq. split.
  - intros [[-> ->] ->]. reflexivity.
  - intros [= -> -> ->]. auto.
Qed.

(** No mismatch is found exactly when every frame has the head's shape; a
    mismatch found is a frame of the list with another shape. *)
Lemma first_mismatch_None (sh0 : nat * nat * nat) (rest : list ndarray) (k : nat) :
  first_mismatch sh0 rest k = None <-> Forall (fun f => shape3 (a_data f) = sh0) rest.
Proof.
  revert k. induction rest as [|f r IH]; intros k; cbn [first_mismatch].
  - split; [constructor | reflexivity].
  - destruct (shape_eqb (shape3 (a_data f)) sh0) eqn:Heq.
    + apply shape_eqb_eq in Heq. rewrite IH. split.
      * intros H. constructor; assumption.
      * intros H. inversion H. assumption.
    + split; [discriminate|]. intros H. apply Forall_cons in H. destruct H as [Hf _].
      apply shape_eqb_eq in Hf. congruence.
Qed.

Lemma first_mismatch_Some (sh0 : nat * nat * nat) (rest : list ndarray) (k j : nat)
    (shj : nat * nat * nat) :
  first_mismatch sh0 rest k = Some (j, shj) ->
  exists f, In f rest /\ shape3 (a_data f) = shj /\ shj <> sh0.
Proof.
  revert k. induction rest as [|f r IH]; intros k; cbn [first_mismatch]; [discriminate|].
  destruct (shape_eqb (shape3 (a_data f)) sh0) eqn:Heq.
  - intros H. destruct (IH _ H) as (g & Hin & Hg). exists g. split; [right; exact Hin | exact Hg].
  - intros [= <- <-]. exists f. split; [left; reflexivity|]. split; [reflexivity|].
    intros Hsh. apply shape_eqb_eq in Hsh. congruence.
Qed.

(** ** VideoResizer: the loop and the call *)

Section ResizerFacts.

Variable G : Prng.
Variable cv2_resize : ndarray -> Z * Z -> pyresult ndarray.

(** The loop with its accumulator appends, in order, the transform of each
    frame under the one resize size and the one reference it was given. *)
Lemma frames_loop_acc (self : VideoResizer) (resize : option (Z * Z)) (reference : Z * Z)
    (frames acc : list ndarray) :
  frames_loop cv2_resize self resize reference frames acc =
  rbind (rmapM (transform_frame cv2_resize self resize reference) frames)
        (fun outs => Ok (acc ++ outs)).
Proof.
  revert acc. induction frames as [|f rest IH]; intros acc; simpl.
  - rewrite app_nil_r. reflexivity.
  - destruct (transform_frame cv2_resize self resize reference f) as [out|e]; simpl;
      [|reflexivity].
    rewrite IH.
    destruct (rmapM _ rest) as [outs|e]; simpl; [|reflexivity].
    rewrite <- app_assoc. reflexivity.
Qed.

Lemma frames_loop_Forall2 (self : VideoResizer) (resize : option (Z * Z))
    (reference : Z * Z) (frames outs : list ndarray) :
  frames_loop cv2_resize self resize reference frames [] = Ok outs <->
  Forall2 (fun f o => transform_frame cv2_resize self resize reference f = Ok o) frames outs.
Proof.
  rewrite frames_loop_acc, <- rmapM_Forall2.
  destruct (rmapM _ frames); simpl; split; congruence.
Qed.

(** Without random cropping the reference is [h // 2, w // 2] and the
    generator is not touched. *)
Lemma get_reference_frame_center (self : VideoResizer) (resize : option (Z * Z))
    (h w : Z) (st : prng_state G) :
  random_crop self = false ->
  get_reference_frame G self resize h w st = (Ok (h / 2, w / 2), st).
Proof. intros Hrc. unfold get_reference_frame. rewrite Hrc. reflexivity. Qed.

(** The resize/crop branch of the call, unfolded once. *)
Lemma VideoResizer_call_resize_path (self : VideoResizer) (data : sample)
    (st : prng_state G) :
  crop_size self <> None \/ resize_size self <> None ->
  VideoResizer_call G cv2_resize self data st =
  match data !! key self with
  | None => (Raise (KeyError ("Specified key " +:+ key self +:+ " not in data")), st)
  | Some video =>
      match
        (hv <~ getitem data (height_key self) ;;
         orig_h <~ first_item hv ;;
         wv <~ getitem data (width_key self) ;;
         orig_w <~ first_item wv ;;
         frames <~ frames_of video ;;
         frame0 <~ first_frame frames ;;
         sz <~ get_resize_size self frame0 orig_h orig_w ;;
         Ok (frames, sz))%py
      with
      | Raise e => (Raise e, st)
      | Ok (frames, (resize, (h, w))) =>
          match get_reference_frame G self resize h w st with
          | (Raise e, st') => (Raise e, st')
          | (Ok reference, st') =>
              match
                (result <~ frames_loop cv2_resize self resize reference frames [] ;;
                 torch_stack result)%py
              with
              | Raise e => (Raise e, st')
              | Ok t =>
                  (Ok (<[key self := VTensor (tensor_to Float16 PyNum.to_float16 t)]> data),
                   st')
              end
          end
      end
  end.
Proof.
  intros Hcfg. unfold VideoResizer_call.
  assert (bool_decide (crop_size self = None) && bool_decide (resize_size self = None)
          = false) as ->.
  { apply andb_false_iff.
    destruct Hcfg as [H|H]; [left|right]; apply bool_decide_eq_false; exact H. }
  destruct (data !! key self) as [video|]; [|reflexivity].
  rewrite bind_lift.
  destruct (getitem data (height_key self)) as [hv|e]; simpl; [|reflexivity].
  rewrite bind_lift.
  destruct (first_item hv) as [orig_h|e]; simpl; [|reflexivity].
  rewrite bind_lift.
  destruct (getitem data (width_key self)) as [wv|e]; simpl; [|reflexivity].
  rewrite bind_lift.
  destruct (first_item wv) as [orig_w|e]; simpl; [|reflexivity].
  rewrite bind_lift.
  destruct (frames_of video) as [frames|e]; simpl; [|reflexivity].
  rewrite bind_lift.
  destruct (first_frame frames) as [frame0|e]; simpl; [|reflexivity].
  rewrite bind_lift.
  destruct (get_resize_size self frame0 orig_h orig_w) as [[resize [h w]]|e]; simpl;
    [|reflexivity].
  unfold bind at 1.
  destruct (get_reference_frame G self resize h w st) as [[reference|e] st']; [|reflexivity].
  rewrite bind_lift.
  destruct (frames_loop cv2_resize self resize reference frames []) as [result|e]; simpl;
    [|reflexivity].
  rewrite bind_lift.
  destruct (torch_stack result) as [t|e]; reflexivity.
Qed.

(** What the loop body does to one frame, step by step. *)
Lemma transform_frame_Ok (self : VideoResizer) (resize : option (Z * Z))
    (reference : Z * Z) (frame out : ndarray) :
  transform_frame cv2_resize self resize reference frame = Ok out ->
  exists resized : ndarray,
    match resize with
    | Some (rh, rw) => cv2_resize frame (rw, rh) = Ok resized
    | None => resized = frame
    end /\
    match crop_size self with
    | Some (crop_h, crop_w) =>
        exists ry rx : Z,
          round_half crop_h = Ok ry /\ round_half crop_w = Ok rx /\
          out = mk_ndarray Float64
                  (map (map (map rescale))
                     (map (py_slice (snd reference - rx) (snd reference - rx + crop_w))
                        (py_slice (fst reference - ry) (fst reference - ry + crop_h)
                           (a_data resized))))
    | None => out = mk_ndarray Float64 (map (map (map rescale)) (a_data resized))
    end.
Proof.
  unfold transform_frame. intros H.
  destruct (resize_step cv2_resize resize frame) as [resized|] eqn:Hres;
    cbn [rbind] in H; [|discriminate].
  exists resized. split.
  - unfold resize_step in Hres. destruct resize as [[rh rw]|]; [exact Hres | congruence].
  - unfold crop_step in H. destruct (crop_size self) as [[crop_h crop_w]|].
    + destruct (round_half crop_w) as [rx|]; cbn [rbind] in H; [|discriminate].
      destruct (round_half crop_h) as [ry|]; cbn [rbind] in H; [|discriminate].
      exists ry, rx. split; [reflexivity|]. split; [reflexivity|].
      injection H as <-. reflexivity.
    + cbn [rbind] in H. injection H as <-. reflexivity.
Qed.

(** C1. Same-clip consistency: when resize and/or crop is configured and the
    call returns, the resize size was computed once (from the first frame and
    the metadata) and the reference point once (one use of the generator, whose
    state after the call is the state after that single computation).  Every
    frame of the clip, in order, was resized by OpenCV to that one size, given
    as (width, height), when a resize size is set; cut to the rows
    [y0 : y0 + crop_h] and columns [x0 : x0 + crop_w] around that one
    reference, with [y0 = reference[0] - round(crop_h / 2)] and
    [x0 = reference[1] - round(crop_w / 2)], when a crop size is set; and
    rescaled by [v / 127.5 - 1].  The results, stacked in order and with every
    element converted to half precision, replace the video field. *)
Theorem VideoResizer_same_clip_consistency (self : VideoResizer) (data data' : sample)
    (st st' : prng_state G) :
  crop_size self <> None \/ resize_size self <> None ->
  VideoResizer_call G cv2_resize self data st = (Ok data', st') ->
  exists video frames frame0 hv wv orig_h orig_w resize h w reference outs t,
    data !! key self = Some video /\
    frames_of video = Ok frames /\
    first_frame frames = Ok frame0 /\
    data !! height_key self = Some hv /\ first_item hv = Ok orig_h /\
    data !! width_key self = Some wv /\ first_item wv = Ok orig_w /\
    get_resize_size self frame0 orig_h orig_w = Ok (resize, (h, w)) /\
    get_reference_frame G self resize h w st = (Ok reference, st') /\
    Forall2
      (fun frame out =>
         exists resized : ndarray,
           match resize with
           | Some (rh, rw) => cv2_resize frame (rw, rh) = Ok resized
           | None => resized = frame
           end /\
           match crop_size self with
           | Some (crop_h, crop_w) =>
               exists ry rx : Z,
                 round_half crop_h = Ok ry /\ round_half crop_w = Ok rx /\
                 out = mk_ndarray Float64
                         (map (map (map rescale))
                            (map (py_slice (snd reference - rx)
                                           (snd reference - rx + crop_w))
                               (py_slice (fst reference - ry)
                                         (fst reference - ry + crop_h)
                                  (a_data resized))))
           | None => out = mk_ndarray Float64 (map (map (map rescale)) (a_data resized))
           end)
      frames outs /\
    torch_stack outs = Ok t /\
    t_frames t = map a_data outs /\
    data' = <[key self :=
                VTensor (mk_tensor Float16 (t_shape t)
                           (map (map (map (map PyNum.to_float16))) (t_frames t)))]> data.
Proof.
  intros Hcfg Hcall.
  rewrite (VideoResizer_call_resize_path self data st Hcfg) in Hcall.
  destruct (data !! key self) as [video|] eqn:Hvideo; [|discriminate].
  unfold getitem in Hcall.
  destruct (data !! height_key self) as [hv|] eqn:Hhv; simpl in Hcall; [|discriminate].
  destruct (first_item hv) as [orig_h|] eqn:Hh; simpl in Hcall; [|discriminate].
  destruct (data !! width_key self) as [wv|] eqn:Hwv; simpl in Hcall; [|discriminate].
  destruct (first_item wv) as [orig_w|] eqn:Hw; simpl in Hcall; [|discriminate].
  destruct (frames_of video) as [frames|] eqn:Hframes; simpl in Hcall; [|discriminate].
  destruct (first_frame frames) as [frame0|] eqn:Hf0; simpl in Hcall; [|discriminate].
  destruct (get_resize_size self frame0 orig_h orig_w) as [[resize [h w]]|] eqn:Hrs;
    simpl in Hcall; [|discriminate].
  destruct (get_reference_frame G self resize h w st) as [[reference|] st1] eqn:Href;
    [|discriminate].
  destruct (frames_loop cv2_resize self resize reference frames []) as [outs|] eqn:Hloop;
    simpl in Hcall; [|discriminate].
  destruct (torch_stack outs) as [t|] eqn:Ht; [|discriminate].
  injection Hcall as <- <-.
  exists video, frames, frame0, hv, wv, orig_h, orig_w, resize, h, w, reference, outs, t.
  apply frames_loop_Forall2 in Hloop.
  do 9 (split; [first [reflexivity | assumption]|]).
  split.
  { eapply Forall2_impl; [exact Hloop|]. intros frame out Hout. cbn beta in Hout.
    exact (transform_frame_Ok self resize reference frame out Hout). }
  split; [exact Ht|]. split; [exact (stack_frames _ _ outs t Ht)|].
  reflexivity.
Qed.

End ResizerFacts.

(** ** VideoResizer: configuration paths *)

Section ResizerPaths.

Variable G : Prng.
Variable cv2_resize : ndarray -> Z * Z -> pyresult ndarray.

(** The identity branch of the call, unfolded once. *)
Lemma VideoResizer_call_identity_path (self : VideoResizer) (data : sample)
    (st : prng_state G) :
  crop_size self = None -> resize_size self = None ->
  VideoResizer_call G cv2_resize self data st =
  match data !! key self with
  | None => (Raise (KeyError (key self)), st)
  | Some (VList fs) =>
      match np_stack fs with
      | Ok t => (Ok (<[key self := VTensor t]> data), st)
      | Raise e => (Raise e, st)
      end
  | Some _ => (Ok data, st)
  end.
Proof.
  intros Hc Hr. unfold VideoResizer_call. rewrite Hc, Hr. simpl.
  rewrite bind_lift. unfold getitem.
  destruct (data !! key self) as [v|]; [|reflexivity].
  destruct v; reflexivity.
Qed.

(** A call without random cropping leaves the generator where it was. *)
Lemma VideoResizer_call_no_draw (self : VideoResizer) (data : sample) (st : prng_state G) :
  random_crop self = false ->
  snd (VideoResizer_call G cv2_resize self data st) = st.
Proof.
  intros Hrc.
  destruct (crop_size self) as [c|] eqn:Hc; [|destruct (resize_size self) as [r|] eqn:Hr].
  - rewrite VideoResizer_call_resize_path by (left; congruence).
    destruct (data !! key self); [|reflexivity].
    destruct (rbind _ _) as [[frames [resize [h w]]]|e]; [|reflexivity].
    rewrite get_reference_frame_center by exact Hrc.
    destruct (rbind _ _); reflexivity.
  - rewrite VideoResizer_call_resize_path by (right; congruence).
    destruct (data !! key self); [|reflexivity].
    destruct (rbind _ _) as [[frames [resize [h w]]]|e]; [|reflexivity].
    rewrite get_reference_frame_center by exact Hrc.
    destruct (rbind _ _); reflexivity.
  - rewrite VideoResizer_call_identity_path by assumption.
    destruct (data !! key self) as [v|]; [|reflexivity].
    destruct v; try reflexivity.
    destruct (np_stack frames); reflexivity.
Qed.

(** C10. With no crop size, the random-crop flag given at construction makes
    no difference: the constructor stores [False] for it either way, so the two
    objects behave alike on every sample and generator state, and the call
    leaves the generator state as it found it (no draw). *)
Theorem random_crop_flag_without_crop_size (size : option size_cfg)
    (k wk hk : string) (data : sample) (st : prng_state G) :
  random_crop (VideoResizer_init size None true k wk hk) = false /\
  VideoResizer_init size None true k wk hk = VideoResizer_init size None false k wk hk /\
  VideoResizer_call G cv2_resize (VideoResizer_init size None true k wk hk) data st =
  VideoResizer_call G cv2_resize (VideoResizer_init size None false k wk hk) data st /\
  snd (VideoResizer_call G cv2_resize (VideoResizer_init size None true k wk hk) data st) = st.
Proof.
  repeat split.
  apply VideoResizer_call_no_draw. reflexivity.
Qed.

Lemma promote_rank_max (a b : dtype) :
  dtype_rank (promote a b) = Nat.max (dtype_rank a) (dtype_rank b).
Proof. destruct a, b; reflexivity. Qed.

Lemma fold_promote_same (d : dtype) (ds : list dtype) :
  Forall (fun x => x = d) ds -> fold_left promote ds d = d.
Proof.
  induction 1 as [|x r Hx _ IH]; simpl; [reflexivity|].
  subst x. assert (promote d d = d) as -> by (destruct d; reflexivity). exact IH.
Qed.

Lemma fold_promote_ge (ds : list dtype) (d0 : dtype) :
  (dtype_rank d0 <= dtype_rank (fold_left promote ds d0))%nat /\
  Forall (fun x => (dtype_rank x <= dtype_rank (fold_left promote ds d0))%nat) ds.
Proof.
  revert d0. induction ds as [|x r IH]; intros d0; simpl.
  - split; [lia | constructor].
  - destruct (IH (promote d0 x)) as [H0 Hr]. rewrite promote_rank_max in H0.
    split; [lia|]. constructor; [lia | exact Hr].
Qed.

(** C4. With neither a resize size nor a crop size, a video field that is a
    list of frames is replaced by those frames stacked (whenever NumPy can stack
    them: at least one frame, all of one shape): the pixel data is the input's,
    frame by frame, no element type is narrowed (a common element type is kept),
    every other field is untouched and no random number is drawn.  A video
    field of any other kind leaves the sample exactly as it was. *)
Theorem VideoResizer_identity_law (self : VideoResizer) (data : sample)
    (st : prng_state G) (v : value) :
  crop_size self = None -> resize_size self = None ->
  data !! key self = Some v ->
  match v with
  | VList fs =>
      match np_stack fs with
      | Ok t =>
          VideoResizer_call G cv2_resize self data st =
            (Ok (<[key self := VTensor t]> data), st) /\
          t_frames t = map a_data fs /\
          Forall (fun f => (dtype_rank (a_dtype f) <= dtype_rank (t_dtype t))%nat) fs /\
          (forall d, Forall (fun f => a_dtype f = d) fs -> t_dtype t = d) /\
          (forall k', k' <> key self ->
             (<[key self := VTensor t]> data) !! k' = data !! k')
      | Raise e =>
          (fs = [] \/ exists f0 rest f, fs = f0 :: rest /\ In f rest /\
                                       shape3 (a_data f) <> shape3 (a_data f0)) /\
          VideoResizer_call G cv2_resize self data st = (Raise e, st)
      end
  | _ => VideoResizer_call G cv2_resize self data st = (Ok data, st)
  end.
Proof.
  intros Hc Hr Hv.
  rewrite (VideoResizer_call_identity_path self data st Hc Hr), Hv.
  destruct v as [fs| | | |]; try reflexivity.
  destruct (np_stack fs) as [t|e] eqn:Hst.
  - split; [reflexivity|]. split; [eapply stack_frames; exact Hst|].
    unfold np_stack, stack in Hst. destruct fs as [|f0 rest]; [discriminate|].
    destruct (first_mismatch _ rest 1) as [[j shj]|]; [discriminate|].
    injection Hst as <-. simpl.
    destruct (fold_promote_ge (map a_dtype rest) (a_dtype f0)) as [H0 Hrest].
    split; [|split].
    + constructor; [exact H0|].
      rewrite Forall_map in Hrest. exact Hrest.
    + intros d Hd. inversion Hd as [|? ? Hd0 Hdr]; subst.
      apply fold_promote_same. rewrite Forall_map. exact Hdr.
    + intros k' Hk. apply lookup_insert_ne. congruence.
  - split; [|reflexivity].
    unfold np_stack, stack in Hst. destruct fs as [|f0 rest]; [left; reflexivity|].
    right. destruct (first_mismatch _ rest 1) as [[j shj]|] eqn:Hmis; [|discriminate].
    apply first_mismatch_Some in Hmis.
    destruct Hmis as (f & Hin & Hf & Hne).
    exists f0, rest, f. split; [reflexivity|]. split; [exact Hin|].
    congruence.
Qed.

End ResizerPaths.

(** ** VideoResizer: the reference point *)

Lemma upper_bound_cases (min_c dim : Z) :
  (min_c <> dim - min_c /\ upper_bound min_c dim = dim - min_c) \/
  (min_c = dim - min_c /\ upper_bound min_c dim = Z.min (dim - min_c + 1) dim).
Proof.
  unfold upper_bound. destruct (Z.eqb_spec min_c (dim - min_c)); [right | left]; auto.
Qed.

(** Whatever is drawn below the (possibly moved) upper bound is at most
    [dim - min]: the bound moves by one at most. *)
Lemma below_upper_bound (min_c dim v : Z) :
  v < upper_bound min_c dim -> v <= dim - min_c.
Proof. destruct (upper_bound_cases min_c dim) as [[_ ->]|[_ ->]]; lia. Qed.

Lemma randint_ok (G : Prng) (low high v : Z) (st st' : prng_state G) :
  randint G low high st = (Ok v, st') ->
  prng_draw G low high st = (v, st') /\ low <= v < high.
Proof.
  unfold randint. destruct (Z.leb_spec high low) as [Hle|Hlt]; [discriminate|].
  pose proof (prng_draw_range G low high st Hlt) as Hr.
  destruct (prng_draw G low high st) as [v0 st0]. intros [= <- <-].
  split; [reflexivity | exact Hr].
Qed.

Section Reference.

Variable G : Prng.
Variable cv2_resize : ndarray -> Z * Z -> pyresult ndarray.


(** The precondition of the random path: a crop size that exceeds the resize
    size on some axis fails the assertion before anything is drawn. *)
Lemma get_rand_reference_asserts (self : VideoResizer) (rh rw crop_h crop_w h w : Z)
    (st : prng_state G) :
  crop_size self = Some (crop_h, crop_w) ->
  rh < crop_h \/ rw < crop_w ->
  get_rand_reference G self (Some (rh, rw)) h w st = (Raise (AssertionError assert_msg), st).
Proof.
  intros Hc Hlt. unfold get_rand_reference. rewrite Hc.
  assert ((crop_h <=? rh) && (crop_w <=? rw) = false) as ->; [|reflexivity].
  apply andb_false_iff. destruct Hlt; [left | right]; apply Z.leb_gt; assumption.
Qed.

(** With random cropping and a pair resize size, a call on a sample that has
    the video (at least one frame) and the two metadata entries raises the
    assertion error when the crop size exceeds the resize size on some axis. *)
Lemma VideoResizer_call_random_crop_asserts (self : VideoResizer) (data : sample)
    (rh rw crop_h crop_w orig_h orig_w : Z) (video hv wv : value)
    (frame0 : ndarray) (rest : list ndarray) (st : prng_state G) :
  random_crop self = true ->
  resize_size self = Some (SizePair rh rw) ->
  crop_size self = Some (crop_h, crop_w) ->
  rh < crop_h \/ rw < crop_w ->
  data !! key self = Some video -> frames_of video = Ok (frame0 :: rest) ->
  data !! height_key self = Some hv -> first_item hv = Ok orig_h ->
  data !! width_key self = Some wv -> first_item wv = Ok orig_w ->
  VideoResizer_call G cv2_resize self data st = (Raise (AssertionError assert_msg), st).
Proof.
  intros Hrc Hrs Hcs Hlt Hv Hfs Hhv Hh Hwv Hw.
  rewrite VideoResizer_call_resize_path by (left; congruence).
  rewrite Hv. unfold getitem. rewrite Hhv. simpl. rewrite Hh. simpl.
  rewrite Hwv. simpl. rewrite Hw. simpl. rewrite Hfs. simpl.
  unfold get_resize_size. rewrite Hrs. simpl.
  unfold get_reference_frame. rewrite Hrc.
  rewrite (get_rand_reference_asserts self rh rw crop_h crop_w rh rw st Hcs Hlt).
  reflexivity.
Qed.

End Reference.

(** ** Numbers: rounding, the scalar resize size and the pixel rescale *)

Lemma all_below_spec (n : Z) (P : Z -> bool) :
  all_below n P = true -> forall z, 0 <= z < n -> P z = true.
Proof.
  unfold all_below. rewrite forallb_forall. intros H z Hz.
  specialize (H (Z.to_nat z)). rewrite Z2Nat.id in H by lia.
  apply H. apply in_seq. lia.
Qed.

(** [round_half_even_pos] returns an integer nearest to [m * 2^e], and the even
    one of the two when [m * 2^e] lies half way. *)
Lemma round_half_even_pos_nearest (m : positive) (e : Z) :
  e < 0 ->
  let d := 2 ^ (- e) in
  let a := PyNum.round_half_even_pos m e in
  2 * Z.abs (a * d - Z.pos m) <= d /\
  (2 * Z.abs (a * d - Z.pos m) = d -> Z.even a = true).
Proof.
  intros He d a. subst a. unfold PyNum.round_half_even_pos.
  destruct (Z.leb_spec 0 e) as [?|_]; [lia|]. fold d.
  assert (0 < d) as Hd by (apply Z.pow_pos_nonneg; lia).
  pose proof (Z.div_mod (Z.pos m) d ltac:(lia)) as Hdm.
  pose proof (Z.mod_pos_bound (Z.pos m) d Hd) as Hr.
  set (q := Z.pos m / d) in *. set (r := Z.pos m mod d) in *.
  destruct (Z.compare_spec (2 * r) d) as [Heq|Hlt|Hgt].
  - destruct (Z.even q) eqn:Hev.
    + split; [nia | intros _; exact Hev].
    + split; [nia|]. intros _.
      replace (q + 1) with (Z.succ q) by lia.
      rewrite Z.even_succ, <- Z.negb_even, Hev. reflexivity.
  - split; [nia | intros H; nia].
  - split; [nia | intros H; nia].
Qed.

(** On the sizes that occur (up to 4096), [math.ceil(c / 2)] is [(c + 1) // 2]
    and [round(c / 2)] is [c // 2] moved up to the next even number when [c]
    is odd and [c // 2] is odd; both computed in binary64 as the code does. *)
Lemma half_sizes (c : Z) :
  0 <= c <= 4096 ->
  ceil_half c = Ok ((c + 1) / 2) /\
  round_half c = Ok (if Z.even c then c / 2
                     else if Z.even (c / 2) then c / 2 else c / 2 + 1).
Proof.
  intros Hc.
  assert (all_below 4097 (fun c =>
            match ceil_half c, round_half c with
            | Ok a, Ok b =>
                (a =? (c + 1) / 2) &&
                (b =? (if Z.even c then c / 2
                       else if Z.even (c / 2) then c / 2 else c / 2 + 1))
            | _, _ => false
            end) = true) as Hall by (vm_compute; reflexivity).
  pose proof (all_below_spec _ _ Hall c ltac:(lia)) as H. cbv beta in H.
  destruct (ceil_half c) as [a|]; [|discriminate].
  destruct (round_half c) as [b|]; [|discriminate].
  apply andb_true_iff in H. destruct H as [H1 H2].
  apply Z.eqb_eq in H1, H2. subst. split; reflexivity.
Qed.

Section Numerics.

Variable cv2_resize : ndarray -> Z * Z -> pyresult ndarray.


(** C9, as the code has it. On the resize/crop path each frame is resized,
    cropped, and then every element [v] becomes [v / 127.5 - 1] in binary64.
    An integer [n] of [0, 255] is mapped into the closed interval [-1, 1]: the
    image is below 1 exactly when [n < 255], and 255 is mapped to 1.0 itself;
    0 is mapped to -1 and 127.5 to 0. *)
Theorem rescale_closed_range (n : Z) :
  0 <= n <= 255 ->
  (-1 <=? rescale (PyNum.float_of_Z n))%float = true /\
  (rescale (PyNum.float_of_Z n) <=? 1)%float = true /\
  (rescale (PyNum.float_of_Z n) <? 1)%float = (n <? 255) /\
  rescale 0 = (-1)%float /\ rescale 127.5 = 0%float /\ rescale 255 = 1%float /\
  (forall (self : VideoResizer) resize reference frame,
     transform_frame cv2_resize self resize reference frame =
     rbind (rbind (resize_step cv2_resize resize frame) (crop_step self reference))
           (fun mid => Ok {| a_dtype := Float64;
                             a_data := map (map (map rescale)) (a_data mid) |})).
Proof.
  intros Hn.
  assert (all_below 256 (fun n =>
            let out := rescale (PyNum.float_of_Z n) in
            (-1 <=? out)%float && (out <=? 1)%float &&
            Bool.eqb (out <? 1)%float (n <? 255)) = true) as Hall
    by (vm_compute; reflexivity).
  pose proof (all_below_spec _ _ Hall n ltac:(lia)) as H. cbv beta zeta in H.
  apply andb_true_iff in H. destruct H as [H H3].
  apply andb_true_iff in H. destruct H as [H1 H2].
  apply Bool.eqb_prop in H3.
  split; [exact H1|]. split; [exact H2|]. split; [exact H3|].
  split; [vm_compute; reflexivity|]. split; [vm_compute; reflexivity|].
  split; [vm_compute; reflexivity|].
  intros self resize reference frame. unfold transform_frame.
  destruct (resize_step cv2_resize resize frame) as [f1|]; [|reflexivity]. cbn [rbind].
  destruct (crop_step self reference f1); reflexivity.
Qed.

(** The half-open interval of the claim fails at its upper end: 255 is an
    integer of [0, 255] and its image is 1.0, which is not below 1. *)
Lemma rescale_255_reaches_one :
  0 <= 255 <= 255 /\
  rescale (PyNum.float_of_Z 255) = 1%float /\
  (rescale (PyNum.float_of_Z 255) <? 1)%float = false /\
  PyNum.to_float16 (rescale (PyNum.float_of_Z 255)) = 1%float.
Proof. split; [lia|]. vm_compute. repeat split. Qed.

End Numerics.

(** ** The temporal sampler *)

Lemma every_nth_from_lookup {A : Type} (step : nat) (l : list A) (skip i : nat) :
  (0 < step)%nat ->
  every_nth_from skip step l !! i = l !! (skip + i * step)%nat.
Proof.
  intros Hstep. revert skip i. induction l as [|x r IH]; intros skip i;
    cbn [every_nth_from].
  - reflexivity.
  - destruct skip as [|k].
    + destruct i as [|i']; [reflexivity|].
      replace (0 + S i' * step)%nat with (S (step - 1 + i' * step)) by lia.
      cbn [lookup list_lookup]. apply IH.
    + replace (S k + i * step)%nat with (S (k + i * step)) by lia.
      cbn [lookup list_lookup]. apply IH.
Qed.

Lemma py_slice_to_take {A : Type} (n : Z) (l : list A) :
  0 <= n -> py_slice_to n l = take (Z.to_nat n) l.
Proof.
  intros Hn. unfold py_slice_to, slice_bound.
  destruct (Z.ltb_spec n 0) as [?|_]; [lia|].
  destruct (Nat.le_ge_cases (Z.to_nat n) (length l)) as [Hle|Hge].
  - rewrite Nat.min_l by exact Hle. reflexivity.
  - rewrite Nat.min_r by exact Hge.
    rewrite !take_ge by lia. reflexivity.
Qed.

Lemma mapM_length {S A B : Type} (f : A -> M S B) (l : list A) (outs : list B)
    (st st' : S) :
  mapM f l st = (Ok outs, st') -> length outs = length l.
Proof.
  revert outs st st'. induction l as [|x r IH]; intros outs st st'; simpl.
  - intros [= <- _]. reflexivity.
  - unfold bind at 1. destruct (f x st) as [[y|] st1]; [|discriminate].
    unfold bind at 1. destruct (mapM f r st1) as [[ys|] st2] eqn:Hr; [|discriminate].
    intros [= <- _]. simpl. f_equal. eapply IH. exact Hr.
Qed.

Lemma mapM_returns_on {S A B : Type} (f : A -> M S B) (P : B -> Prop) (l : list A) (st : S) :
  Forall (fun x => forall st0, exists y st1, f x st0 = (Ok y, st1) /\ P y) l ->
  exists outs st', mapM f l st = (Ok outs, st') /\ length outs = length l /\ Forall P outs.
Proof.
  intros Hf. revert st. induction l as [|x r IH]; intros st; simpl.
  - exists [], st. repeat split. constructor.
  - apply Forall_cons in Hf. destruct Hf as [Hx Hr].
    destruct (Hx st) as (y & st1 & Hy & HP).
    destruct (IH Hr st1) as (ys & st2 & Hys & Hlen & HPs).
    exists (y :: ys), st2. unfold bind at 1. rewrite Hy.
    unfold bind at 1. rewrite Hys. simpl.
    split; [reflexivity|]. split; [congruence|]. constructor; assumption.
Qed.

Lemma stack_same_shape (err : exn) (mis : nat * nat * nat -> nat -> nat * nat * nat -> exn)
    (outs : list ndarray) (sh : nat * nat * nat) :
  outs <> [] -> Forall (fun o => shape3 (a_data o) = sh) outs ->
  exists t, stack err mis outs = Ok t /\ t_frames t = map a_data outs.
Proof.
  intros Hne Hall. destruct outs as [|o0 rest]; [congruence|].
  apply Forall_cons in Hall. destruct Hall as [H0 Hrest].
  unfold stack.
  assert (first_mismatch (shape3 (a_data o0)) rest 1 = None) as ->.
  { apply first_mismatch_None. rewrite H0. exact Hrest. }
  eexists. split; reflexivity.
Qed.

Lemma selected_frames_lookup (n_frames take_every_nth : Z) (video : tensor) (i : nat) :
  0 < take_every_nth ->
  selected_frames n_frames take_every_nth video !! i =
  if decide (Z.of_nat i < n_frames)
  then t_frames (permute_0312 video) !! (i * Z.to_nat take_every_nth)%nat
  else None.
Proof.
  intros Hstep. unfold selected_frames.
  destruct (decide (Z.of_nat i < n_frames)) as [Hlt|Hge].
  - rewrite lookup_take_lt by lia.
    rewrite every_nth_from_lookup by lia. reflexivity.
  - apply lookup_take_ge. lia.
Qed.

Lemma sampled_video_eq (n_frames take_every_nth : Z) (video : tensor) :
  0 < take_every_nth -> 0 <= n_frames ->
  sampled_video n_frames take_every_nth video =
  let sel := selected_frames n_frames take_every_nth video in
  let kept := mk_tensor (t_dtype (permute_0312 video)) (t_shape (permute_0312 video)) sel in
  Ok (if Z.of_nat (length sel) <? n_frames then zero_pad n_frames kept else kept).
Proof.
  intros Hstep Hn. unfold sampled_video, slice_step.
  destruct (Z.eqb_spec take_every_nth 0) as [?|_]; [lia|].
  destruct (Z.ltb_spec take_every_nth 0) as [?|_]; [lia|]. cbn [rbind].
  rewrite py_slice_to_take by exact Hn. reflexivity.
Qed.

Lemma selected_frames_length (n_frames take_every_nth : Z) (video : tensor) :
  (length (selected_frames n_frames take_every_nth video) <= Z.to_nat n_frames)%nat.
Proof. unfold selected_frames. rewrite length_take. lia. Qed.

Section SamplerFacts.

Variable TV : Torchvision.
Variable OPENAI_DATASET_MEAN OPENAI_DATASET_STD : option (list float).
Variable frame_size : Z.
Variable is_train : bool.
Variable frame_mean frame_std : option stat_cfg.

(** C7. The temporal sampler keeps the frames at indices 0, N, 2N, ... of the
    (axis-permuted) clip and then the first [n_frames] of those: frame [i] of
    the selection is frame [i * N] of the clip for [i < n_frames], and there is
    no frame [i] beyond.  A 20-frame clip with stride 2 and [n_frames = 5]
    yields exactly the frames at indices 0, 2, 4, 6, 8, without padding. *)
Theorem temporal_sampler_stride_truncate (n_frames take_every_nth : Z) (video : tensor) :
  0 < take_every_nth -> 0 <= n_frames ->
  let frames := t_frames (permute_0312 video) in
  slice_step take_every_nth frames =
    Ok (every_nth_from 0 (Z.to_nat take_every_nth) frames) /\
  py_slice_to n_frames (every_nth_from 0 (Z.to_nat take_every_nth) frames) =
    selected_frames n_frames take_every_nth video /\
  (forall i : nat,
     selected_frames n_frames take_every_nth video !! i =
     if decide (Z.of_nat i < n_frames)
     then frames !! (i * Z.to_nat take_every_nth)%nat else None) /\
  (forall clip : tensor,
     length (t_frames clip) = 20%nat ->
     exists f0 f2 f4 f6 f8,
       t_frames (permute_0312 clip) !! 0%nat = Some f0 /\
       t_frames (permute_0312 clip) !! 2%nat = Some f2 /\
       t_frames (permute_0312 clip) !! 4%nat = Some f4 /\
       t_frames (permute_0312 clip) !! 6%nat = Some f6 /\
       t_frames (permute_0312 clip) !! 8%nat = Some f8 /\
       sampled_video 5 2 clip =
         Ok (mk_tensor (t_dtype clip) (t_shape (permute_0312 clip)) [f0; f2; f4; f6; f8])).
Proof.
  intros Hstep Hn frames. split; [|split; [|split]].
  - unfold slice_step. destruct (Z.eqb_spec take_every_nth 0) as [?|_]; [lia|].
    destruct (Z.ltb_spec take_every_nth 0) as [?|_]; [lia | reflexivity].
  - apply py_slice_to_take. exact Hn.
  - intros i. apply selected_frames_lookup. exact Hstep.
  - intros [dt [[h w] c] fs] Hlen. simpl in Hlen.
    do 20 (destruct fs as [|? fs]; [discriminate|]).
    destruct fs; [|discriminate].
    do 5 eexists. repeat (split; [reflexivity|]). reflexivity.
Qed.

(** With [is_train] set, the pipeline holds [RandomResizedCrop] with the scale
    (0.9, 0.1), whose lower end is above the upper one: applied to a frame, it
    raises there at the latest. *)
Lemma train_pipeline_raises (frame : ndarray) (st : torch_rng TV) :
  is_train = true ->
  exists e st',
    frame_transform TV OPENAI_DATASET_MEAN OPENAI_DATASET_STD frame_size is_train
                    frame_mean frame_std frame st = (Raise e, st').
Proof.
  intros Htrain. unfold frame_transform, transforms. rewrite Htrain.
  cbn [Compose]. unfold bind at 1.
  destruct (tv_call TV ToPILImage frame st) as [[img|e] st1]; [|eexists _, _; reflexivity].
  unfold bind at 1.
  destruct (tv_uniform_range TV frame_size 0.9%float 0.1%float BICUBIC img st1 eq_refl)
    as (e & st2 & Hraise).
  rewrite Hraise. eexists _, _. reflexivity.
Qed.

(** With [is_train] set the returned transform never returns a result,
    whatever the clip, the stride and the frame count. *)
Lemma train_transform_never_returns (n_frames take_every_nth : Z) (video : tensor)
    (c1 c2 : value) (st : torch_rng TV) :
  is_train = true ->
  exists e st',
    apply_frame_transform TV OPENAI_DATASET_MEAN OPENAI_DATASET_STD frame_size n_frames
                          take_every_nth is_train frame_mean frame_std (video, c1, c2) st
    = (Raise e, st').
Proof.
  intros Htrain. unfold apply_frame_transform. rewrite bind_lift.
  destruct (sampled_video n_frames take_every_nth video) as [sv|e];
    [|eexists _, _; reflexivity].
  unfold unstack. destruct (t_frames sv) as [|p rest]; cbn [map mapM].
  - unfold bind, ret, lift. cbn. eexists _, _. reflexivity.
  - unfold bind at 1. unfold bind at 1.
    destruct (train_pipeline_raises (frame_float (mk_ndarray (t_dtype sv) p)) st Htrain)
      as (e & st1 & Hraise).
    rewrite Hraise. eexists _, _. reflexivity.
Qed.

(** C6. After striding from index 0 and truncation to [n_frames], a clip that
    is left with fewer than [n_frames] frames is extended at the end with frames
    of the clip's shape that are zero in every element, so that the per-frame
    pipeline is run on exactly [n_frames] frames: the kept ones followed by the
    zero frames.  The padding comes before the pipeline, which treats each zero
    frame as it treats any frame, and a returned result has exactly [n_frames]
    frames.  Whether a result is returned depends on [is_train]: without it,
    one is returned whenever the operations return, for the frames of the
    clip, frames of one shape; with it, the inverted scale (0.9, 0.1) of [RandomResizedCrop] makes the pipeline
    raise on the first frame, and no clip ever yields a result. *)
Theorem temporal_sampler_pads_before_pipeline (n_frames take_every_nth : Z)
    (video : tensor) (c1 c2 : value) (st : torch_rng TV) :
  0 < take_every_nth -> 0 < n_frames ->
  let sel := selected_frames n_frames take_every_nth video in
  let shape := t_shape (permute_0312 video) in
  let zero_frame :=
    replicate (fst (fst shape))
              (replicate (snd (fst shape)) (replicate (snd shape) 0%float)) in
  let pipeline :=
    frame_transform TV OPENAI_DATASET_MEAN OPENAI_DATASET_STD
                    frame_size is_train frame_mean frame_std in
  let run :=
    apply_frame_transform TV OPENAI_DATASET_MEAN OPENAI_DATASET_STD frame_size n_frames
                          take_every_nth is_train frame_mean frame_std (video, c1, c2) st in
  exists sv : tensor,
    sampled_video n_frames take_every_nth video = Ok sv /\
    length (t_frames sv) = Z.to_nat n_frames /\
    t_shape sv = shape /\
    t_frames sv =
      (if Z.of_nat (length sel) <? n_frames
       then map (map (map (map PyNum.to_float32))) sel
            ++ replicate (Z.to_nat n_frames - length sel) zero_frame
       else sel) /\
    run = bind (mapM (fun frame => pipeline (frame_float frame)) (unstack sv))
               (fun outs => lift (torch_cat_unsqueezed outs)) st /\
    (forall out st', run = (Ok out, st') -> length (t_frames out) = Z.to_nat n_frames) /\
    (is_train = true -> exists e st', run = (Raise e, st')) /\
    (is_train = false ->
     forall out_shape,
       Forall (fun frame => forall st0, exists o st1,
                 pipeline (frame_float frame) st0 = (Ok o, st1) /\
                 shape3 (a_data o) = out_shape) (unstack sv) ->
       exists out st', run = (Ok out, st') /\ length (t_frames out) = Z.to_nat n_frames).
Proof.
  intros Hstep Hn sel shape zero_frame pipeline run.
  pose proof (sampled_video_eq n_frames take_every_nth video Hstep ltac:(lia)) as Hsv.
  cbv zeta in Hsv. fold sel in Hsv. fold shape in Hsv.
  pose proof (selected_frames_length n_frames take_every_nth video) as Hlen. fold sel in Hlen.
  set (sv := if Z.of_nat (length sel) <? n_frames
             then zero_pad n_frames (mk_tensor (t_dtype (permute_0312 video)) shape sel)
             else mk_tensor (t_dtype (permute_0312 video)) shape sel) in *.
  assert (zeros3 shape = zero_frame) as Hzero.
  { subst zero_frame. destruct shape as [[a b] c]. reflexivity. }
  assert (length (t_frames sv) = Z.to_nat n_frames) as Hcount.
  { subst sv. destruct (Z.ltb_spec (Z.of_nat (length sel)) n_frames) as [Hlt|Hge]; cbn.
    - rewrite length_app, length_map, length_replicate. lia.
    - lia. }
  assert (run = bind (mapM (fun frame => pipeline (frame_float frame)) (unstack sv))
                     (fun outs => lift (torch_cat_unsqueezed outs)) st) as Happ.
  { subst run. unfold apply_frame_transform. rewrite bind_lift, Hsv. reflexivity. }
  exists sv. split; [exact Hsv|]. split; [exact Hcount|].
  split; [subst sv; destruct (_ <? _); reflexivity|].
  split.
  { subst sv. destruct (_ <? _); [|reflexivity].
    cbn [zero_pad t_frames t_shape]. rewrite Hzero. reflexivity. }
  split; [exact Happ|]. split; [|split].
  - intros out st' Hout. rewrite Happ in Hout. unfold bind in Hout.
    destruct (mapM _ _ st) as [[outs|] st1] eqn:Hm; [|discriminate].
    apply mapM_length in Hm. unfold lift in Hout. injection Hout as Hcat _.
    apply stack_frames in Hcat. rewrite Hcat, length_map, Hm.
    unfold unstack. rewrite length_map. exact Hcount.
  - intros Htrain. subst run.
    apply train_transform_never_returns. exact Htrain.
  - intros _ out_shape Hpipe. rewrite Happ.
    destruct (mapM_returns_on (fun frame => pipeline (frame_float frame))
                (fun o => shape3 (a_data o) = out_shape) (unstack sv) st)
      as (outs & st1 & Hm & Hlen' & Hshapes).
    { exact Hpipe. }
    assert (length outs = Z.to_nat n_frames) as Houts.
    { rewrite Hlen'. unfold unstack. rewrite length_map. exact Hcount. }
    destruct (stack_same_shape
                (RuntimeError "torch.cat(): expected a non-empty list of Tensors")
                (fun sh0 k shk =>
                   let '(expected, got) := first_difference sh0 shk in
                   RuntimeError
                     ("Sizes of tensors must match except in dimension 0. Expected size "
                      +:+ pretty expected +:+ " but got size " +:+ pretty got
                      +:+ " for tensor number " +:+ pretty k +:+ " in the list."))
                outs out_shape) as (t & Ht & Hframes).
    { intros ->. simpl in Houts. lia. }
    { exact Hshapes. }
    exists t, st1. unfold bind. rewrite Hm. unfold lift, torch_cat_unsqueezed.
    rewrite Ht. split; [reflexivity|].
    rewrite Hframes, length_map. exact Houts.
Qed.

End SamplerFacts.

(** ** CutsAdder *)

Lemma CutsAdder_call_present (self : CutsAdder) (smp : sample) (cuts video : value) :
  smp !! cuts_key self = Some cuts ->
  smp !! video_key self = Some video ->
  CutsAdder_call self smp = Ok (delete (video_key self) smp).
Proof.
  intros Hc Hv. unfold CutsAdder_call. rewrite Hc, Hv.
  rewrite lookup_insert_eq, delete_insert_eq. reflexivity.
Qed.

Lemma CutsAdder_call_missing_cuts (self : CutsAdder) (smp : sample) :
  smp !! cuts_key self = None ->
  CutsAdder_call self smp = Raise (AssertionError (missing_msg (cuts_key self))).
Proof. intros Hc. unfold CutsAdder_call. rewrite Hc. reflexivity. Qed.

(** C2, on the code. For the sample [{"mp4": frames, "cuts": c}] and
    [CutsAdder("cuts", "mp4")] the call returns [{"cuts": c}]: the nested
    mapping is stored under "mp4" and then that very key is deleted, so the
    result has no video entry at all and still has the standalone cuts entry. *)
Theorem CutsAdder_call_deletes_video_key :
  CutsAdder_call (CutsAdder_init "cuts" "mp4") cuts_sample
    = Ok (<["cuts" := VOther "0-10"]> ∅) /\
  (<["cuts" := VOther "0-10"]> (∅ : sample)) !! "mp4" = None /\
  (<["cuts" := VOther "0-10"]> (∅ : sample)) !! "cuts" = Some (VOther "0-10").
Proof.
  split; [|split; reflexivity].
  rewrite (CutsAdder_call_present _ cuts_sample (VOther "0-10") (VOther "frames"))
    by reflexivity.
  cbn [video_key CutsAdder_init]. unfold cuts_sample.
  rewrite delete_insert_eq. rewrite delete_id by reflexivity. reflexivity.
Qed.

(** ** Evaluations *)

(** C3, on the code. With the resize size (4, 4), the crop size (6, 6) and
    center cropping, a call on a one-frame sample raises nothing: it returns
    the sample with a 1 x 1 frame cut by a slice that starts at a negative
    index.  The same call with random cropping raises the assertion error. *)
Theorem center_crop_skips_size_check (st : Z) :
  resize_size (oversize_self false) = Some (SizePair 4 4) /\
  crop_size (oversize_self false) = Some (6, 6) /\
  random_crop (oversize_self false) = false /\
  VideoResizer_call lcg nearest_resize (oversize_self false) one_frame_data st =
    (Ok (<["mp4" := VTensor (mk_tensor Float16 (1, 1, 1)%nat
                                       [[[[(-0.7412109375)%float]]]])]> one_frame_data),
     st) /\
  VideoResizer_call lcg nearest_resize (oversize_self true) one_frame_data st =
    (Raise (AssertionError assert_msg), st).
Proof.
  split; [reflexivity|]. split; [reflexivity|]. split; [reflexivity|].
  split.
  - rewrite VideoResizer_call_resize_path by (left; discriminate).
    vm_compute. reflexivity.
  - apply (VideoResizer_call_random_crop_asserts lcg nearest_resize (oversize_self true)
             one_frame_data 4 4 6 6 4 4 (VList [ramp_frame 4 4 0]) (VInts [4]) (VInts [4])
             (ramp_frame 4 4 0) []); try reflexivity.
    left. lia.
Qed.

Lemma VideoResizer_same_clip_consistency_witness :
  (crop_size halving_self <> None \/ resize_size halving_self <> None) /\
  VideoResizer_call lcg nearest_resize halving_self demo_data 7
    = (Ok (<["mp4" := VTensor halving_tensor]> demo_data), 642666333) /\
  exists video frames frame0 hv wv orig_h orig_w resize h w reference outs t,
    demo_data !! key halving_self = Some video /\
    frames_of video = Ok frames /\
    first_frame frames = Ok frame0 /\
    demo_data !! height_key halving_self = Some hv /\ first_item hv = Ok orig_h /\
    demo_data !! width_key halving_self = Some wv /\ first_item wv = Ok orig_w /\
    get_resize_size halving_self frame0 orig_h orig_w = Ok (resize, (h, w)) /\
    get_reference_frame lcg halving_self resize h w 7 = (Ok reference, 642666333) /\
    Forall2
      (fun frame out =>
         exists resized : ndarray,
           match resize with
           | Some (rh, rw) => nearest_resize frame (rw, rh) = Ok resized
           | None => resized = frame
           end /\
           match crop_size halving_self with
           | Some (crop_h, crop_w) =>
               exists ry rx : Z,
                 round_half crop_h = Ok ry /\ round_half crop_w = Ok rx /\
                 out = mk_ndarray Float64
                         (map (map (map rescale))
                            (map (py_slice (snd reference - rx)
                                           (snd reference - rx + crop_w))
                               (py_slice (fst reference - ry)
                                         (fst reference - ry + crop_h)
                                  (a_data resized))))
           | None => out = mk_ndarray Float64 (map (map (map rescale)) (a_data resized))
           end)
      frames outs /\
    torch_stack outs = Ok t /\
    t_frames t = map a_data outs /\
    <["mp4" := VTensor halving_tensor]> demo_data
      = <[key halving_self :=
            VTensor (mk_tensor Float16 (t_shape t)
                       (map (map (map (map PyNum.to_float16))) (t_frames t)))]> demo_data.
Proof.
  assert (crop_size halving_self <> None \/ resize_size halving_self <> None) as H1
    by (left; discriminate).
  assert (VideoResizer_call lcg nearest_resize halving_self demo_data 7
          = (Ok (<["mp4" := VTensor halving_tensor]> demo_data), 642666333)) as H2
    by (vm_compute; reflexivity).
  split; [exact H1|]. split; [exact H2|].
  exact (VideoResizer_same_clip_consistency lcg nearest_resize halving_self demo_data
           (<["mp4" := VTensor halving_tensor]> demo_data) 7 642666333 H1 H2).
Defined.

(** The halving resizer on [demo_data]: the one resize size is (2, 3), the one
    reference (1, 1), and both frames are cut from their resized versions. *)
Example halving_resizer_steps :
  get_resize_size halving_self (ramp_frame 4 6 0) 4 6 = Ok (Some (2, 3), (2, 3)) /\
  get_reference_frame lcg halving_self (Some (2, 3)) 2 3 7 = (Ok (1, 1), 642666333) /\
  nearest_resize (ramp_frame 4 6 0) (3, 2) =
    Ok (mk_ndarray UInt8 [[[0]; [2]; [4]]; [[20]; [22]; [24]]]%float) /\
  frames_loop nearest_resize halving_self (Some (2, 3)) (1, 1) demo_frames [] =
    Ok [mk_ndarray Float64
          [[[rescale 0]; [rescale 2]]; [[rescale 20]; [rescale 22]]];
        mk_ndarray Float64
          [[[rescale 100]; [rescale 102]]; [[rescale 120]; [rescale 122]]]].
Proof.
  split; [vm_compute; reflexivity|]. split; [vm_compute; reflexivity|].
  split; vm_compute; reflexivity.
Qed.

Lemma VideoResizer_identity_law_witness :
  crop_size plain_self = None /\ resize_size plain_self = None /\
  demo_data !! key plain_self = Some (VList demo_frames) /\
  let t := mk_tensor UInt8 (4, 6, 1)%nat (map a_data demo_frames) in
  VideoResizer_call lcg nearest_resize plain_self demo_data 7 =
    (Ok (<[key plain_self := VTensor t]> demo_data), 7) /\
  t_frames t = map a_data demo_frames /\
  Forall (fun f => (dtype_rank (a_dtype f) <= dtype_rank (t_dtype t))%nat) demo_frames /\
  (forall d, Forall (fun f => a_dtype f = d) demo_frames -> t_dtype t = d) /\
  (forall k', k' <> key plain_self ->
     (<[key plain_self := VTensor t]> demo_data) !! k' = demo_data !! k').
Proof.
  split; [reflexivity|]. split; [reflexivity|]. split; [reflexivity|].
  exact (VideoResizer_identity_law lcg nearest_resize plain_self demo_data 7
           (VList demo_frames) eq_refl eq_refl eq_refl).
Defined.


Lemma temporal_sampler_stride_truncate_witness :
  0 < 2 /\ 0 <= 5 /\
  slice_step 2 (t_frames (permute_0312 clip20)) =
    Ok (every_nth_from 0 (Z.to_nat 2) (t_frames (permute_0312 clip20))) /\
  (forall i : nat,
     selected_frames 5 2 clip20 !! i =
     if decide (Z.of_nat i < 5)
     then t_frames (permute_0312 clip20) !! (i * Z.to_nat 2)%nat else None).
Proof.
  assert (0 < 2) as H1 by lia. assert (0 <= 5) as H2 by lia.
  split; [exact H1|]. split; [exact H2|].
  destruct (temporal_sampler_stride_truncate 5 2 clip20 H1 H2) as (Hs & _ & Hl & _).
  split; [exact Hs | exact Hl].
Defined.

Lemma temporal_sampler_pads_before_pipeline_witness :
  0 < 1 /\ 0 < 5 /\
  exists sv : tensor,
    sampled_video 5 1 clip3 = Ok sv /\
    t_frames sv =
      [[[[1; 2]; [11; 12]]];
       [[[101; 102]; [111; 112]]];
       [[[201; 202]; [211; 212]]];
       [[[0; 0]; [0; 0]]];
       [[[0; 0]; [0; 0]]]]%float /\
    exists out st',
      apply_frame_transform plain_torchvision None None 224 5 1 false None None
                            (clip3, VOther "", VOther "") tt = (Ok out, st') /\
      length (t_frames out) = Z.to_nat 5.
Proof.
  assert (0 < 1) as H1 by lia. assert (0 < 5) as H2 by lia.
  split; [exact H1|]. split; [exact H2|].
  destruct (temporal_sampler_pads_before_pipeline plain_torchvision None None 224 false
              None None 5 1 clip3 (VOther "") (VOther "") tt H1 H2)
    as (sv & Hsv & _ & _ & Hfr & _ & _ & _ & Hret).
  exists sv. split; [exact Hsv|]. split; [exact Hfr|].
  apply (Hret eq_refl (1, 2, 2)%nat).
  unfold unstack. rewrite Hfr.
  repeat (apply Forall_cons; split; [intros []; eexists _, tt; split; reflexivity|]).
  apply Forall_nil. exact I.
Defined.

Lemma rescale_closed_range_witness :
  0 <= 255 <= 255 /\
  (-1 <=? rescale (PyNum.float_of_Z 255))%float = true /\
  (rescale (PyNum.float_of_Z 255) <=? 1)%float = true /\
  (rescale (PyNum.float_of_Z 255) <? 1)%float = (255 <? 255).
Proof.
  assert (0 <= 255 <= 255) as H by lia.
  split; [exact H|].
  destruct (rescale_closed_range nearest_resize 255 H) as (H1 & H2 & H3 & _).
  split; [exact H1|]. split; [exact H2 | exact H3].
Defined.

(** ** Examples *)

(** The crop fills the frame on both axes: [min = max] on each, the upper
    bound moves up by one, and the only reference that can be drawn is the
    centre [dim - min = min]. *)
Example get_rand_reference_degenerate :
  upper_bound 2 4 = 3 /\ upper_bound 3 6 = 4 /\
  get_rand_reference lcg full_crop_self None 4 6 7 = (Ok (2, 3), 642666333).
Proof. vm_compute. repeat split. Qed.

(** A frame one row too low for the crop: [x] is drawn, then the draw of [y]
    fails on an empty range. *)
Example get_rand_reference_too_small :
  fst (get_rand_reference lcg full_crop_self None 3 6 7) = Raise (ValueError "low >= high").
Proof. vm_compute. reflexivity. Qed.

(** Three frames, [n_frames = 5], stride 1: five frames come out, the last two
    are the zero frames as the (here: identity) pipeline returns them. *)
Example apply_frame_transform_pads_three_to_five :
  apply_frame_transform plain_torchvision None None 224 5 1 false None None
                        (clip3, VOther "", VOther "") tt =
  (Ok {| t_dtype := Float32;
         t_shape := (1, 2, 2)%nat;
         t_frames :=
           [[[[1; 2]; [11; 12]]];
            [[[101; 102]; [111; 112]]];
            [[[201; 202]; [211; 212]]];
            [[[0; 0]; [0; 0]]];
            [[[0; 0]; [0; 0]]]]%float |}, tt).
Proof. vm_compute. reflexivity. Qed.

(** Twenty frames numbered 0 to 19, stride 2, [n_frames = 5]: frames
    0, 2, 4, 6, 8 and nothing else. *)
Example sampled_video_twenty_frames :
  sampled_video 5 2 clip20 =
  Ok {| t_dtype := UInt8;
        t_shape := (1, 1, 1)%nat;
        t_frames := [[[[0]]]; [[[2]]]; [[[4]]]; [[[6]]]; [[[8]]]]%float |}.
Proof. vm_compute. reflexivity. Qed.

(** A stride that is not positive is refused by the tensor library, zero and
    a negative one with different messages. *)
Example slice_step_zero :
  slice_step 0 [1; 2; 3] = Raise (ValueError "slice step cannot be zero") /\
  slice_step (-1) [1; 2; 3] = Raise (ValueError "step must be greater than zero").
Proof. split; reflexivity. Qed.

(** With [is_train] set, the first frame already fails in [RandomResizedCrop]. *)
Example apply_frame_transform_train_raises :
  exists e,
    apply_frame_transform plain_torchvision None None 224 5 1 true None None
                          (clip3, VOther "", VOther "") tt = (Raise e, tt).
Proof. eexists. vm_compute. reflexivity. Qed.

Example CutsAdder_call_requires_cuts :
  CutsAdder_call (CutsAdder_init "cuts" "mp4") (<["mp4" := VOther "frames"]> ∅)
  = Raise (AssertionError (missing_msg "cuts")).
Proof. reflexivity. Qed.

Example round_examples :
  PyNum.round 0.5 = Ok 0 /\ PyNum.round 1.5 = Ok 2 /\ PyNum.round 2.5 = Ok 2 /\
  PyNum.round (-2.5) = Ok (-2) /\ PyNum.round 2.75 = Ok 3 /\ PyNum.round 50 = Ok 50 /\
  PyNum.round (-0.25) = Ok 0.
Proof. vm_compute. repeat split. Qed.

Example ceil_examples :
  PyNum.ceil 0.5 = Ok 1 /\ PyNum.ceil 2 = Ok 2 /\ PyNum.ceil 2.5 = Ok 3 /\
  PyNum.ceil (-2.5) = Ok (-2) /\ PyNum.ceil (-0.5) = Ok 0.
Proof. vm_compute. repeat split. Qed.

Example cast_examples :
  PyNum.to_float16 1 = 1%float /\ PyNum.to_float16 2049 = 2048%float /\
  PyNum.to_float16 2051 = 2052%float /\
  PyNum.to_float16 65520 = infinity /\ PyNum.to_float16 65519 = 65504%float /\
  PyNum.to_float32 16777217 = 16777216%float /\
  PyNum.float_of_Z 255 = 255%float /\ PyNum.float_of_Z (-3) = (-3)%float.
Proof. vm_compute. repeat split. Qed.

Example py_slice_examples :
  py_slice 1 3 [10; 20; 30; 40] = [20; 30] /\
  py_slice (-1) 5 [10; 20; 30; 40] = [40] /\
  py_slice 2 9 [10; 20; 30; 40] = [30; 40] /\
  py_slice 3 1 [10; 20; 30; 40] = [] /\
  py_slice (-9) 2 [10; 20; 30; 40] = [10; 20] /\
  py_slice_to (-1) [10; 20; 30] = [10; 20] /\
  py_slice_to 5 [10; 20; 30] = [10; 20; 30].
Proof. repeat split. Qed.

(** * Further properties *)

(** ** Crop windows *)

(** A slice whose bounds lie inside the sequence has the length asked for and
    reads the elements from its start on. *)
Lemma py_slice_inside {A : Type} (a n : Z) (l : list A) :
  0 <= a -> 0 <= n -> a + n <= Z.of_nat (length l) ->
  py_slice a (a + n) l = take (Z.to_nat n) (drop (Z.to_nat a) l) /\
  length (py_slice a (a + n) l) = Z.to_nat n.
Proof.
  intros Ha Hn Hlen. unfold py_slice, slice_bound.
  destruct (Z.ltb_spec a 0) as [?|_]; [lia|].
  destruct (Z.ltb_spec (a + n) 0) as [?|_]; [lia|].
  rewrite !Nat.min_l by lia.
  replace (Z.to_nat (a + n) - Z.to_nat a)%nat with (Z.to_nat n) by lia.
  split; [reflexivity|].
  rewrite length_take, length_drop. lia.
Qed.

(** A slice that starts one before the beginning and stops before the last
    element is empty: the start wraps around to the last element. *)
Lemma py_slice_wrapped {A : Type} (n : Z) (l : list A) :
  1 <= n -> n = Z.of_nat (length l) -> py_slice (-1) (-1 + n) l = [].
Proof.
  intros Hn Hlen. unfold py_slice, slice_bound.
  destruct (Z.ltb_spec (-1) 0) as [_|?]; [|lia].
  destruct (Z.ltb_spec (-1 + n) 0) as [?|_]; [lia|].
  match goal with |- take ?k _ = _ => replace k with 0%nat by lia end.
  reflexivity.
Qed.

(** What a successful reference sampling tells: the two draws and the range
    each coordinate lies in. *)
Lemma get_rand_reference_inv (G : Prng) (self : VideoResizer) (resize : option (Z * Z))
    (h w y x : Z) (st st' : prng_state G) :
  get_rand_reference G self resize h w st = (Ok (y, x), st') ->
  exists crop_h crop_w min_y min_x st1,
    crop_size self = Some (crop_h, crop_w) /\
    match resize with
    | None => True
    | Some (rh, rw) => crop_h <= rh /\ crop_w <= rw
    end /\
    ceil_half crop_h = Ok min_y /\ ceil_half crop_w = Ok min_x /\
    prng_draw G min_x (upper_bound min_x w) st = (x, st1) /\
    prng_draw G min_y (upper_bound min_y h) st1 = (y, st') /\
    min_x <= x <= w - min_x /\
    min_y <= y <= h - min_y.
Proof.
  unfold get_rand_reference.
  destruct (crop_size self) as [[crop_h crop_w]|] eqn:Hcs; [|discriminate].
  destruct (match resize with Some (rh, rw) => _ | None => true end) eqn:Hassert;
    [|discriminate].
  rewrite bind_lift.
  destruct (ceil_half crop_w) as [min_x|] eqn:Hmx; [|discriminate].
  rewrite bind_lift.
  destruct (ceil_half crop_h) as [min_y|] eqn:Hmy; [|discriminate].
  unfold bind at 1.
  destruct (randint G min_x (upper_bound min_x w) st) as [[x0|] st1] eqn:Hx; [|discriminate].
  unfold bind at 1.
  destruct (randint G min_y (upper_bound min_y h) st1) as [[y0|] st2] eqn:Hy; [|discriminate].
  intros [= <- <- <-].
  apply randint_ok in Hx. destruct Hx as [Hdx Hrx].
  apply randint_ok in Hy. destruct Hy as [Hdy Hry].
  exists crop_h, crop_w, min_y, min_x, st1.
  pose proof (below_upper_bound min_x w x0 (proj2 Hrx)).
  pose proof (below_upper_bound min_y h y0 (proj2 Hry)).
  split; [reflexivity|]. split.
  { destruct resize as [[rh rw]|]; [|exact I].
    apply andb_true_iff in Hassert. destruct Hassert as [H1 H2].
    apply Z.leb_le in H1, H2. split; assumption. }
  repeat split; try assumption; try reflexivity; lia.
Qed.

(** The offset [round(c / 2)] never exceeds [ceil(c / 2)], and the two add up
    to [c] or to [c + 1]. *)
Lemma round_ceil_half (c : Z) :
  0 <= c <= 4096 ->
  exists r m, round_half c = Ok r /\ ceil_half c = Ok m /\
              0 <= r <= m /\ c <= r + m <= c + 1 /\ 2 * m <= c + 1 /\ c <= 2 * m.
Proof.
  intros Hc. destruct (half_sizes c Hc) as [Hm Hr].
  eexists _, _. split; [exact Hr|]. split; [exact Hm|].
  destruct (Z.even c) eqn:Hev.
  - apply Z.even_spec in Hev. destruct Hev as [k ->]. Z.div_mod_to_equations. lia.
  - rewrite <- Z.negb_odd in Hev. apply negb_false_iff in Hev.
    apply Z.odd_spec in Hev. destruct Hev as [k ->].
    destruct (Z.even ((2 * k + 1) / 2)); Z.div_mod_to_equations; lia.
Qed.

Section CropWindows.

Variable G : Prng.

(** X1. Around a reference that random sampling returned, the crop window lies
    inside the frame: on a frame of [h] rows and [w] columns (the dimensions
    the reference was sampled for) the cropped frame has exactly [crop_h] rows
    and [crop_w] columns, for crop sizes up to 4096. *)
Theorem random_crop_window_has_crop_size (self : VideoResizer) (resize : option (Z * Z))
    (h w y x crop_h crop_w : Z) (st st' : prng_state G) (frame : ndarray) :
  get_rand_reference G self resize h w st = (Ok (y, x), st') ->
  crop_size self = Some (crop_h, crop_w) ->
  0 <= crop_h <= 4096 -> 0 <= crop_w <= 4096 ->
  Z.of_nat (length (a_data frame)) = h ->
  Forall (fun row => Z.of_nat (length row) = w) (a_data frame) ->
  exists out,
    crop_step self (y, x) frame = Ok out /\
    Z.of_nat (length (a_data out)) = crop_h /\
    Forall (fun row => Z.of_nat (length row) = crop_w) (a_data out).
Proof.
  intros Href Hcs Hch Hcw Hrows Hcols.
  apply get_rand_reference_inv in Href.
  destruct Href as (ch & cw & min_y & min_x & st1 & Hcs' & _ & Hmy & Hmx & _ & _ & Hx & Hy).
  rewrite Hcs in Hcs'. injection Hcs' as <- <-.
  destruct (round_ceil_half crop_h Hch) as (ry & my & Hry & Hmy' & Hy1 & Hy2 & Hy3 & Hy4).
  destruct (round_ceil_half crop_w Hcw) as (rx & mx & Hrx & Hmx' & Hx1 & Hx2 & Hx3 & Hx4).
  rewrite Hmy in Hmy'. injection Hmy' as <-. rewrite Hmx in Hmx'. injection Hmx' as <-.
  unfold crop_step. rewrite Hcs, Hrx, Hry. cbn [rbind fst snd].
  eexists. split; [reflexivity|]. unfold crop_window. cbn [a_data].
  destruct (py_slice_inside (y - ry) crop_h (a_data frame)) as [Heq Hlen]; try lia.
  split.
  - rewrite length_map, Hlen. lia.
  - rewrite Forall_map. rewrite Heq.
    apply Forall_take, Forall_drop.
    eapply Forall_impl; [exact Hcols|]. intros row Hrow. cbn beta in Hrow |- *.
    destruct (py_slice_inside (x - rx) crop_w row) as [_ Hl]; try lia.
Qed.

(** X2. For crop sizes from 0 to 4096 on each axis: with center cropping the
    window around [(h // 2, w // 2)] has the crop size whenever the crop fits
    the frame, with one exception on each axis: a crop as long as the axis, of
    a length that leaves remainder 3 modulo 4, starts at index -1 and comes out
    empty. *)
Theorem center_crop_window_size (self : VideoResizer) (h w crop_h crop_w : Z)
    (frame : ndarray) :
  crop_size self = Some (crop_h, crop_w) ->
  0 <= crop_h <= 4096 -> 0 <= crop_w <= 4096 ->
  Z.of_nat (length (a_data frame)) = h ->
  Forall (fun row => Z.of_nat (length row) = w) (a_data frame) ->
  crop_h <= h -> crop_w <= w ->
  exists out,
    crop_step self (h / 2, w / 2) frame = Ok out /\
    Z.of_nat (length (a_data out)) =
      (if (crop_h =? h) && (crop_h mod 4 =? 3) then 0 else crop_h) /\
    Forall (fun row => Z.of_nat (length row) =
                       if (crop_w =? w) && (crop_w mod 4 =? 3) then 0 else crop_w)
           (a_data out).
Proof.
  intros Hcs Hch Hcw Hrows Hcols Hfit_h Hfit_w.
  assert (forall (A : Type) (c dim : Z) (l : list A) (r : Z),
            0 <= c <= 4096 -> round_half c = Ok r -> Z.of_nat (length l) = dim -> c <= dim ->
            Z.of_nat (length (py_slice (dim / 2 - r) (dim / 2 - r + c) l)) =
            if (c =? dim) && (c mod 4 =? 3) then 0 else c) as Haxis.
  { intros A c dim l r Hc Hr Hl Hfit.
    destruct (half_sizes c Hc) as [_ Hr']. rewrite Hr in Hr'. injection Hr' as Hr'.
    assert (exists j, (c = 2 * j /\ r = j) \/
                      (c = 4 * j + 1 /\ r = 2 * j) \/
                      (c = 4 * j + 3 /\ r = 2 * j + 2)) as (j & Hj).
    { destruct (Z.even c) eqn:Hev.
      - apply Z.even_spec in Hev. destruct Hev as [k Hk]. exists k. left.
        subst r. Z.div_mod_to_equations. lia.
      - rewrite <- Z.negb_odd in Hev. apply negb_false_iff in Hev.
        apply Z.odd_spec in Hev. destruct Hev as [k Hk].
        destruct (Z.even (c / 2)) eqn:Hev2.
        + apply Z.even_spec in Hev2. destruct Hev2 as [i Hi]. exists i. right. left.
          subst r. Z.div_mod_to_equations. lia.
        + rewrite <- Z.negb_odd in Hev2. apply negb_false_iff in Hev2.
          apply Z.odd_spec in Hev2. destruct Hev2 as [i Hi]. exists i. right. right.
          subst r. Z.div_mod_to_equations. lia. }
    clear Hr'.
    destruct (Z.eqb_spec c dim) as [Heq|Hne]; cbn [andb];
      [destruct (Z.eqb_spec (c mod 4) 3) as [H3|H3]|].
    - assert (dim / 2 - r = -1) as Hm1 by (Z.div_mod_to_equations; lia).
      rewrite Hm1. rewrite py_slice_wrapped; [reflexivity | Z.div_mod_to_equations; lia | lia].
    - assert (dim / 2 - r = 0) as H0 by (Z.div_mod_to_equations; lia).
      rewrite H0.
      destruct (py_slice_inside 0 c l) as [_ Hlen]; try lia.
    - assert (0 <= dim / 2 - r /\ dim / 2 - r + c <= dim) as [Hlo Hhi]
        by (Z.div_mod_to_equations; lia).
      destruct (py_slice_inside (dim / 2 - r) c l) as [_ Hlen]; try lia. }
  destruct (round_ceil_half crop_h Hch) as (ry & my & Hry & _).
  destruct (round_ceil_half crop_w Hcw) as (rx & mx & Hrx & _).
  unfold crop_step. rewrite Hcs, Hrx, Hry. cbn [rbind fst snd].
  eexists. split; [reflexivity|]. unfold crop_window. cbn [a_data].
  split.
  - rewrite length_map. apply Haxis; assumption.
  - rewrite Forall_map.
    assert (Forall (fun row : list (list float) => Z.of_nat (length row) = w)
                   (py_slice (h / 2 - ry) (h / 2 - ry + crop_h) (a_data frame))) as Hsub.
    { unfold py_slice. apply Forall_take, Forall_drop. exact Hcols. }
    eapply Forall_impl; [exact Hsub|]. intros row Hrow. cbn beta.
    apply Haxis; assumption.
Qed.

End CropWindows.

(** ** Reference sampling and the call: outcomes *)

Lemma range_nonempty_iff (min_c dim : Z) :
  min_c < upper_bound min_c dim <-> 2 * min_c < dim \/ (2 * min_c = dim /\ 0 < min_c).
Proof. unfold upper_bound. destruct (Z.eqb_spec min_c (dim - min_c)); lia. Qed.

Section Outcomes.

Variable G : Prng.
Variable cv2_resize : ndarray -> Z * Z -> pyresult ndarray.

(** X3. Random-crop reference sampling returns a reference exactly when the
    crop size does not exceed the resize size (if one is set) and, on each axis,
    twice [ceil(crop / 2)] fits into a positive dimension; an odd crop as long
    as the axis therefore fails.  Otherwise it raises: the assertion error
    before any draw, or the generator's [ValueError]. *)
Theorem get_rand_reference_outcome (self : VideoResizer) (resize : option (Z * Z))
    (h w crop_h crop_w : Z) (st : prng_state G) :
  crop_size self = Some (crop_h, crop_w) ->
  0 <= crop_h <= 4096 -> 0 <= crop_w <= 4096 ->
  let fits := match resize with
              | None => True
              | Some (rh, rw) => crop_h <= rh /\ crop_w <= rw
              end in
  let room := fun c dim => 2 * ((c + 1) / 2) <= dim /\ 0 < dim in
  match get_rand_reference G self resize h w st with
  | (Ok _, _) => fits /\ room crop_w w /\ room crop_h h
  | (Raise e, st') =>
      (e = AssertionError assert_msg /\ st' = st /\ ~ fits) \/
      (e = ValueError "low >= high" /\ fits /\ ~ (room crop_w w /\ room crop_h h))
  end.
Proof.
  intros Hcs Hch Hcw fits room. unfold get_rand_reference. rewrite Hcs.
  destruct (half_sizes crop_h Hch) as [Hmy _].
  destruct (half_sizes crop_w Hcw) as [Hmx _].
  assert (0 <= (crop_h + 1) / 2) as Hpy by (Z.div_mod_to_equations; lia).
  assert (0 <= (crop_w + 1) / 2) as Hpx by (Z.div_mod_to_equations; lia).
  destruct (match resize with Some (rh, rw) => _ | None => true end) eqn:Hassert.
  - assert fits as Hfits.
    { subst fits. destruct resize as [[rh rw]|]; [|exact I].
      apply andb_true_iff in Hassert. destruct Hassert as [H1 H2].
      apply Z.leb_le in H1, H2. split; assumption. }
    rewrite bind_lift, Hmx, bind_lift, Hmy.
    unfold bind at 1, randint at 1.
    pose proof (range_nonempty_iff ((crop_w + 1) / 2) w) as Hrx.
    pose proof (range_nonempty_iff ((crop_h + 1) / 2) h) as Hry.
    destruct (Z.leb_spec (upper_bound ((crop_w + 1) / 2) w) ((crop_w + 1) / 2)) as [Hex|Hnx].
    { right. split; [reflexivity|]. split; [exact Hfits|]. unfold room. lia. }
    destruct (prng_draw G _ _ st) as [x st1].
    unfold bind at 1, randint at 1.
    destruct (Z.leb_spec (upper_bound ((crop_h + 1) / 2) h) ((crop_h + 1) / 2)) as [Hey|Hny].
    { right. split; [reflexivity|]. split; [exact Hfits|]. unfold room. lia. }
    destruct (prng_draw G _ _ st1) as [y st2]. cbn.
    split; [exact Hfits|]. unfold room. lia.
  - left. split; [reflexivity|]. split; [reflexivity|].
    subst fits. destruct resize as [[rh rw]|]; [|discriminate].
    apply andb_false_iff in Hassert. intros [H1 H2].
    destruct Hassert as [Ha|Ha]; apply Z.leb_gt in Ha; lia.
Qed.

(** X4. A sample without the video key makes the call raise [KeyError] and
    leaves the generator alone, with or without resize and crop configured;
    only the text differs: the bare key on the identity path, the sentence
    "Specified key ... not in data" otherwise. *)
Theorem VideoResizer_call_missing_video_key (self : VideoResizer) (data : sample)
    (st : prng_state G) :
  data !! key self = None ->
  VideoResizer_call G cv2_resize self data st =
  (Raise (KeyError
            (if bool_decide (crop_size self = None) && bool_decide (resize_size self = None)
             then key self
             else "Specified key " +:+ key self +:+ " not in data")), st).
Proof.
  intros Hk. unfold VideoResizer_call.
  destruct (bool_decide (crop_size self = None) && bool_decide (resize_size self = None)).
  - rewrite bind_lift. unfold getitem. rewrite Hk. reflexivity.
  - rewrite Hk. reflexivity.
Qed.

(** X5. On the resize/crop path the two metadata entries are read before
    anything else is done, whatever the configuration: a sample that has the
    video but lacks the height entry, or has it and lacks the width entry, makes
    the call raise [KeyError] for that key, also when the resize size is a pair
    or unset and the values would not be used. *)
Theorem VideoResizer_call_requires_metadata (self : VideoResizer) (data : sample)
    (video : value) (st : prng_state G) :
  crop_size self <> None \/ resize_size self <> None ->
  data !! key self = Some video ->
  data !! height_key self = None \/
  (exists hv orig_h, data !! height_key self = Some hv /\ first_item hv = Ok orig_h /\
                     data !! width_key self = None) ->
  VideoResizer_call G cv2_resize self data st =
  (Raise (KeyError (if bool_decide (data !! height_key self = None)
                    then height_key self else width_key self)), st).
Proof.
  intros Hcfg Hv Hmeta.
  rewrite VideoResizer_call_resize_path by exact Hcfg.
  rewrite Hv. unfold getitem.
  destruct Hmeta as [Hh|(hv & orig_h & Hh & Hoh & Hw)].
  - rewrite Hh. rewrite bool_decide_eq_true_2 by reflexivity. reflexivity.
  - rewrite Hh. rewrite bool_decide_eq_false_2 by discriminate.
    cbn [rbind]. rewrite Hoh. cbn [rbind]. rewrite Hw. reflexivity.
Qed.

(** X6. An empty clip is an error on both paths and draws nothing: stacking no
    frame raises numpy's [ValueError] for an empty list ("need at least one
    array to stack") on the identity path, and reading the first frame raises
    [IndexError] on the resize/crop path (after the metadata was read). *)
Theorem VideoResizer_call_empty_clip (self : VideoResizer) (data : sample)
    (hv wv : value) (orig_h orig_w : Z) (st : prng_state G) :
  data !! key self = Some (VList []) ->
  data !! height_key self = Some hv -> first_item hv = Ok orig_h ->
  data !! width_key self = Some wv -> first_item wv = Ok orig_w ->
  VideoResizer_call G cv2_resize self data st =
  (Raise (if bool_decide (crop_size self = None) && bool_decide (resize_size self = None)
          then ValueError "need at least one array to stack"
          else IndexError), st).
Proof.
  intros Hv Hhv Hh Hwv Hw.
  destruct (bool_decide (crop_size self = None) && bool_decide (resize_size self = None))
    eqn:Hid.
  - apply andb_true_iff in Hid. destruct Hid as [Hc Hr].
    apply bool_decide_eq_true_1 in Hc. apply bool_decide_eq_true_1 in Hr.
    rewrite VideoResizer_call_identity_path by assumption. rewrite Hv. reflexivity.
  - apply andb_false_iff in Hid.
    rewrite VideoResizer_call_resize_path.
    + rewrite Hv. unfold getitem. rewrite Hhv. cbn [rbind]. rewrite Hh. cbn [rbind].
      rewrite Hwv. cbn [rbind]. rewrite Hw. reflexivity.
    + destruct Hid as [H|H]; apply bool_decide_eq_false_1 in H; [left | right]; exact H.
Qed.

(** X7. When a call with resize and/or crop configured returns, the video field
    holds a float16 tensor with as many frames as the clip had (at least one),
    and every other field of the sample is as it was. *)
Theorem VideoResizer_call_result (self : VideoResizer) (data data' : sample)
    (st st' : prng_state G) :
  crop_size self <> None \/ resize_size self <> None ->
  VideoResizer_call G cv2_resize self data st = (Ok data', st') ->
  exists video frames t,
    data !! key self = Some video /\ frames_of video = Ok frames /\ frames <> [] /\
    data' !! key self = Some (VTensor t) /\
    t_dtype t = Float16 /\
    length (t_frames t) = length frames /\
    (forall k, k <> key self -> data' !! k = data !! k).
Proof.
  intros Hcfg Hcall.
  rewrite (VideoResizer_call_resize_path G cv2_resize self data st Hcfg) in Hcall.
  destruct (data !! key self) as [video|] eqn:Hvideo; [|discriminate].
  destruct (getitem data (height_key self)) as [hv|]; cbn [rbind] in Hcall; [|discriminate].
  destruct (first_item hv) as [orig_h|]; cbn [rbind] in Hcall; [|discriminate].
  destruct (getitem data (width_key self)) as [wv|]; cbn [rbind] in Hcall; [|discriminate].
  destruct (first_item wv) as [orig_w|]; cbn [rbind] in Hcall; [|discriminate].
  destruct (frames_of video) as [frames|] eqn:Hframes; cbn [rbind] in Hcall; [|discriminate].
  destruct (first_frame frames) as [frame0|] eqn:Hf0; cbn [rbind] in Hcall; [|discriminate].
  destruct (get_resize_size self frame0 orig_h orig_w) as [[resize [h w]]|];
    cbn [rbind] in Hcall; [|discriminate].
  destruct (get_reference_frame G self resize h w st) as [[reference|] st1]; [|discriminate].
  destruct (frames_loop cv2_resize self resize reference frames []) as [outs|] eqn:Hloop;
    cbn [rbind] in Hcall; [|discriminate].
  destruct (torch_stack outs) as [t|] eqn:Ht; [|discriminate].
  injection Hcall as <- <-.
  exists video, frames, (tensor_to Float16 PyNum.to_float16 t).
  split; [reflexivity|]. split; [exact Hframes|].
  split; [destruct frames; [discriminate | discriminate]|].
  split; [apply lookup_insert_eq|]. split; [reflexivity|].
  split.
  - cbn [tensor_to t_frames]. rewrite length_map.
    apply stack_frames in Ht. rewrite Ht, length_map.
    apply frames_loop_Forall2 in Hloop. symmetry. eapply Forall2_length. exact Hloop.
  - intros k Hk. apply lookup_insert_ne. congruence.
Qed.

(** X8. A resizer built with a crop size and random cropping uses the generator
    exactly twice in a call that returns, however many frames the clip has:
    the state after the call is the state after two successive draws. *)
Theorem VideoResizer_call_two_draws (size : option size_cfg) (crop : size_cfg)
    (k wk hk : string) (data data' : sample) (st st' : prng_state G) :
  VideoResizer_call G cv2_resize (VideoResizer_init size (Some crop) true k wk hk) data st
    = (Ok data', st') ->
  exists lo1 hi1 x st1 lo2 hi2 y,
    prng_draw G lo1 hi1 st = (x, st1) /\ prng_draw G lo2 hi2 st1 = (y, st').
Proof.
  set (self := VideoResizer_init size (Some crop) true k wk hk).
  intros Hcall.
  assert (crop_size self <> None) as Hc by (destruct crop; discriminate).
  assert (random_crop self = true) as Hrc by (destruct crop; reflexivity).
  rewrite (VideoResizer_call_resize_path G cv2_resize self data st (or_introl Hc)) in Hcall.
  destruct (data !! key self) as [video|]; [|discriminate].
  destruct (rbind _ _) as [[frames [resize [h w]]]|]; [|discriminate].
  unfold get_reference_frame in Hcall. rewrite Hrc in Hcall.
  destruct (get_rand_reference G self resize h w st) as [[[y x]|] st1] eqn:Href; [|discriminate].
  destruct (rbind _ _) as [t|]; [|discriminate].
  injection Hcall as _ <-.
  apply get_rand_reference_inv in Href.
  destruct Href as (ch & cw & min_y & min_x & st0 & _ & _ & _ & _ & Hdx & Hdy & _).
  exists min_x, (upper_bound min_x w), x, st0, min_y, (upper_bound min_y h), y.
  split; assumption.
Qed.

(** X9. With random cropping, the assertion guards every resize configuration:
    whenever the resize size computed for the clip (given as a pair, or derived
    from a scalar) is smaller than the crop size on some axis, the call raises
    the assertion error and nothing is drawn. *)
Theorem VideoResizer_call_asserts_on_computed_size (self : VideoResizer) (data : sample)
    (rh rw h w crop_h crop_w orig_h orig_w : Z) (video hv wv : value)
    (frame0 : ndarray) (rest : list ndarray) (st : prng_state G) :
  random_crop self = true ->
  crop_size self = Some (crop_h, crop_w) ->
  data !! key self = Some video -> frames_of video = Ok (frame0 :: rest) ->
  data !! height_key self = Some hv -> first_item hv = Ok orig_h ->
  data !! width_key self = Some wv -> first_item wv = Ok orig_w ->
  get_resize_size self frame0 orig_h orig_w = Ok (Some (rh, rw), (h, w)) ->
  rh < crop_h \/ rw < crop_w ->
  VideoResizer_call G cv2_resize self data st = (Raise (AssertionError assert_msg), st).
Proof.
  intros Hrc Hcs Hv Hfs Hhv Hh Hwv Hw Hrs Hlt.
  rewrite VideoResizer_call_resize_path by (left; congruence).
  rewrite Hv. unfold getitem. rewrite Hhv. cbn [rbind]. rewrite Hh. cbn [rbind].
  rewrite Hwv. cbn [rbind]. rewrite Hw. cbn [rbind]. rewrite Hfs. cbn [rbind first_frame].
  rewrite Hrs. cbn [rbind].
  unfold get_reference_frame. rewrite Hrc.
  rewrite (get_rand_reference_asserts G self rh rw crop_h crop_w h w st Hcs Hlt).
  reflexivity.
Qed.

End Outcomes.

(** ** CutsAdder: outcomes *)

(** X10. [CutsAdder] returns exactly when the sample has both keys; the cuts
    key is checked first, and a missing key raises the assertion error that
    names it.  A returned sample agrees with the input on every key other than
    the video key. *)
Theorem CutsAdder_call_outcome (self : CutsAdder) (smp : sample) :
  match CutsAdder_call self smp with
  | Ok out =>
      is_Some (smp !! cuts_key self) /\ is_Some (smp !! video_key self) /\
      forall k, k <> video_key self -> out !! k = smp !! k
  | Raise e =>
      (smp !! cuts_key self = None /\
       e = AssertionError (missing_msg (cuts_key self))) \/
      (is_Some (smp !! cuts_key self) /\ smp !! video_key self = None /\
       e = AssertionError (missing_msg (video_key self)))
  end.
Proof.
  unfold CutsAdder_call.
  destruct (smp !! cuts_key self) as [cuts|] eqn:Hc; [|left; split; reflexivity].
  destruct (smp !! video_key self) as [video|] eqn:Hv.
  - rewrite lookup_insert_eq.
    split; [eexists; reflexivity|]. split; [eexists; reflexivity|].
    intros k Hk. rewrite lookup_delete_ne by congruence.
    apply lookup_insert_ne. congruence.
  - right. split; [eexists; reflexivity|]. split; reflexivity.
Qed.

(** ** The temporal sampler: counts and refusals *)

Lemma every_nth_from_length {A : Type} (step : nat) (l : list A) (skip : nat) :
  (0 < step)%nat ->
  length (every_nth_from skip step l) = ((length l - skip + (step - 1)) / step)%nat.
Proof.
  intros Hstep. revert skip. induction l as [|x r IH]; intros skip; cbn [every_nth_from length].
  - rewrite Nat.div_small by lia. reflexivity.
  - destruct skip as [|k].
    + cbn [length]. rewrite IH.
      destruct (Nat.le_gt_cases (step - 1) (length r)) as [Hle|Hgt].
      * replace (length r - (step - 1) + (step - 1))%nat with (length r) by lia.
        replace (S (length r) - 0 + (step - 1))%nat with (length r + 1 * step)%nat by lia.
        rewrite Nat.div_add by lia. lia.
      * replace (length r - (step - 1) + (step - 1))%nat with (step - 1)%nat by lia.
        replace (S (length r) - 0 + (step - 1))%nat with (length r + 1 * step)%nat by lia.
        rewrite Nat.div_add by lia.
        rewrite !Nat.div_small by lia. reflexivity.
    + rewrite IH. reflexivity.
Qed.

Lemma permute_0312_length (t : tensor) :
  length (t_frames (permute_0312 t)) = length (t_frames t).
Proof.
  unfold permute_0312. destruct (t_shape t) as [[h w] c]. cbn [t_frames].
  apply length_map.
Qed.

Section SamplerCounts.

Variable TV : Torchvision.
Variable OPENAI_DATASET_MEAN OPENAI_DATASET_STD : option (list float).
Variable frame_size : Z.
Variable is_train : bool.
Variable frame_mean frame_std : option stat_cfg.

(** X11. A clip of [T] frames sampled with stride [N] offers [ceil(T / N)]
    frames; the sampler keeps [min(n_frames, ceil(T / N))] of them and appends
    [n_frames] minus that many zero frames.  It pads, and the tensor becomes
    float32, exactly when [ceil(T / N) < n_frames]; an empty clip gives
    [n_frames] zero frames. *)
Theorem temporal_sampler_counts (n_frames take_every_nth : Z) (video : tensor) :
  0 < take_every_nth -> 0 <= n_frames ->
  let T := Z.of_nat (length (t_frames video)) in
  let offered := (T + take_every_nth - 1) / take_every_nth in
  let sel := selected_frames n_frames take_every_nth video in
  Z.of_nat (length sel) = Z.min n_frames offered /\
  exists sv,
    sampled_video n_frames take_every_nth video = Ok sv /\
    t_dtype sv = (if offered <? n_frames then Float32 else t_dtype video) /\
    t_frames sv =
      (if offered <? n_frames then map (map_pixels PyNum.to_float32) sel else sel)
      ++ replicate (Z.to_nat (n_frames - Z.min n_frames offered))
                   (zeros3 (t_shape (permute_0312 video))).
Proof.
  intros Hstep Hn T offered sel.
  assert (Z.of_nat (length sel) = Z.min n_frames offered) as Hcount.
  { subst sel offered T. unfold selected_frames.
    rewrite length_take, every_nth_from_length by lia.
    rewrite permute_0312_length.
    rewrite Nat2Z.inj_min, Z2Nat.id by lia.
    rewrite Nat2Z.inj_div. f_equal. f_equal; lia. }
  split; [exact Hcount|].
  rewrite (sampled_video_eq n_frames take_every_nth video Hstep Hn). cbv zeta.
  fold sel. eexists. split; [reflexivity|].
  assert ((Z.of_nat (length sel) <? n_frames) = (offered <? n_frames)) as ->.
  { rewrite Hcount. destruct (Z.ltb_spec offered n_frames);
      destruct (Z.ltb_spec (Z.min n_frames offered) n_frames); lia. }
  destruct (Z.ltb_spec offered n_frames) as [Hlt|Hge].
  - split; [reflexivity|]. cbn [zero_pad t_frames t_shape]. f_equal. f_equal. lia.
  - split.
    + unfold permute_0312. destruct (t_shape video) as [[h w] c]. reflexivity.
    + cbn [t_frames].
      replace (Z.to_nat (n_frames - Z.min n_frames offered)) with 0%nat by lia.
      cbn [replicate]. rewrite app_nil_r. reflexivity.
Qed.

(** X12. The returned transform refuses two configurations before the frame
    pipeline is run (the torch generator is left alone).  A stride that is not
    positive raises [ValueError] when the clip is sliced: "slice step cannot
    be zero" for the stride 0 and "step must be greater than zero" for a
    negative one.  With a positive stride, [n_frames = 0] leaves nothing to
    concatenate and [torch.cat] raises [RuntimeError]. *)
Theorem apply_frame_transform_refusals (n_frames take_every_nth : Z) (video : tensor)
    (c1 c2 : value) (st : torch_rng TV) :
  take_every_nth <= 0 \/ n_frames = 0 ->
  apply_frame_transform TV OPENAI_DATASET_MEAN OPENAI_DATASET_STD
                        frame_size n_frames take_every_nth is_train frame_mean frame_std
                        (video, c1, c2) st =
  (Raise (if take_every_nth =? 0
          then ValueError "slice step cannot be zero"
          else if take_every_nth <? 0
          then ValueError "step must be greater than zero"
          else RuntimeError "torch.cat(): expected a non-empty list of Tensors"), st).
Proof.
  intros Hbad. unfold apply_frame_transform. rewrite bind_lift.
  destruct (Z.eqb_spec take_every_nth 0) as [Hz|Hnz].
  { unfold sampled_video, slice_step. rewrite Hz. reflexivity. }
  destruct (Z.ltb_spec take_every_nth 0) as [Hneg|Hpos].
  - unfold sampled_video, slice_step.
    destruct (Z.eqb_spec take_every_nth 0) as [?|_]; [lia|].
    destruct (Z.ltb_spec take_every_nth 0) as [_|?]; [reflexivity | lia].
  - destruct Hbad as [?|Hn]; [lia|]. subst n_frames.
    rewrite sampled_video_eq by lia. cbv zeta.
    unfold selected_frames. cbn [Z.to_nat take length Z.of_nat Z.ltb Z.compare].
    cbn [unstack t_frames map mapM]. reflexivity.
Qed.

(** X13. A mean that Python counts as false (0.0, -0.0 or an empty tuple) is
    replaced by the default like an unset one, so the operations composed are
    those of a call without a mean; the same holds for the standard deviation. *)
Theorem transforms_falsy_statistic (c : stat_cfg) (other : option stat_cfg) :
  stat_truthy (Some c) = false ->
  transforms OPENAI_DATASET_MEAN OPENAI_DATASET_STD frame_size is_train (Some c) other =
  transforms OPENAI_DATASET_MEAN OPENAI_DATASET_STD frame_size is_train None other /\
  transforms OPENAI_DATASET_MEAN OPENAI_DATASET_STD frame_size is_train other (Some c) =
  transforms OPENAI_DATASET_MEAN OPENAI_DATASET_STD frame_size is_train other None.
Proof.
  intros Hf. unfold transforms, stat_triple. rewrite Hf. cbn [stat_truthy].
  split; reflexivity.
Qed.

End SamplerCounts.

(** ** Scalar resize and pixel levels *)

(** X14. With a scalar resize size [S] the shorter original side becomes
    exactly [S], whichever side it is and however long the other one: checked
    in binary64 for every [S] and shorter side from 1 to 128.  The other side
    is [round(long * (S / short))]. *)
Theorem get_resize_size_short_side_exact (S short long : Z) (frame : ndarray) :
  1 <= S <= 128 -> 1 <= short <= 128 -> short <= long ->
  let f := (PyNum.float_of_Z S / PyNum.float_of_Z short)%float in
  get_resize_size (scalar_resizer S) frame short long =
    rbind (PyNum.round (PyNum.float_of_Z long * f)%float)
          (fun r => Ok (Some (S, r), (S, r))) /\
  get_resize_size (scalar_resizer S) frame long short =
    rbind (PyNum.round (PyNum.float_of_Z long * f)%float)
          (fun r => Ok (Some (r, S), (r, S))).
Proof.
  intros HS Hshort Hlong f.
  assert (all_below 129 (fun S => all_below 129 (fun short =>
            (S =? 0) || (short =? 0) ||
            (let f := (PyNum.float_of_Z S / PyNum.float_of_Z short)%float in
             match PyNum.round (PyNum.float_of_Z short * f)%float with
             | Ok r => r =? S
             | Raise _ => false
             end &&
             forallb (fun s => match PyNum.round (SF2Prim (S754_infinity s) * f)%float with
                               | Raise OverflowError => true
                               | _ => false
                               end) [false; true]))) = true) as Hall
    by (vm_cast_no_check (eq_refl true)).
  pose proof (all_below_spec _ _ Hall S ltac:(lia)) as H1. cbv beta in H1.
  pose proof (all_below_spec _ _ H1 short ltac:(lia)) as H2. cbv beta zeta in H2.
  clear Hall H1. fold f in H2.
  destruct (Z.eqb_spec S 0); [lia|]. destruct (Z.eqb_spec short 0); [lia|].
  cbn [orb] in H2. apply andb_true_iff in H2. destruct H2 as [H2 Hinf].
  assert (PyNum.round (PyNum.float_of_Z short * f)%float = Ok S) as Hround.
  { destruct (PyNum.round _) as [r|]; [|discriminate].
    apply Z.eqb_eq in H2. congruence. }
  assert (forall s, PyNum.round (SF2Prim (S754_infinity s) * f)%float
                    = Raise OverflowError) as Hover.
  { intros s. rewrite forallb_forall in Hinf.
    assert (In s [false; true]) as Hin by (destruct s; simpl; auto).
    specialize (Hinf s Hin). cbv beta in Hinf.
    destruct (PyNum.round (SF2Prim (S754_infinity s) * f)%float) as [r|e];
      [discriminate Hinf|].
    destruct e; try discriminate Hinf. reflexivity. }
  clear H2 Hinf.
  assert (forall z, PyNum.int_to_float z = Ok (PyNum.float_of_Z z) \/
                    (PyNum.int_to_float z = Raise OverflowError /\
                     exists s, PyNum.float_of_Z z = SF2Prim (S754_infinity s))) as Hconv.
  { intros z. unfold PyNum.int_to_float, PyNum.float_of_Z.
    destruct (binary_normalize prec emax z 0 false) as [s0|s0| |s0 m e];
      [left; reflexivity | right | left; reflexivity | left; reflexivity].
    split; [reflexivity | exists s0; reflexivity]. }
  assert (PyNum.int_to_float short = Ok (PyNum.float_of_Z short)) as Hshortf.
  { destruct (Hconv short) as [H|[_ [s Hs]]]; [exact H|].
    rewrite Hs, Hover in Hround. discriminate. }
  assert (PyNum.truediv S short = Ok f) as Hdiv.
  { unfold PyNum.truediv. destruct (Z.eqb_spec short 0); [lia|].
    assert ((Z.abs S <? 2 ^ 53) && (Z.abs short <? 2 ^ 53) = true) as ->; [|reflexivity].
    apply andb_true_iff. split; apply Z.ltb_lt; lia. }
  unfold get_resize_size, scalar_resizer. cbn [resize_size].
  rewrite Z.min_l by lia. rewrite Z.min_r by lia.
  rewrite Hdiv. cbn [rbind]. rewrite Hshortf. cbn [rbind]. rewrite Hround. cbn [rbind].
  destruct (Hconv long) as [Hl|[Hl [s Hs]]]; rewrite Hl; cbn [rbind].
  - split; [reflexivity|].
    destruct (PyNum.round (PyNum.float_of_Z long * f)%float); reflexivity.
  - rewrite Hs, Hover. split; reflexivity.
Qed.

(** The image of pixel level [n] in the returned tensor. *)
Definition pixel_image (n : Z) : float :=
  PyNum.to_float16 (rescale (PyNum.float_of_Z n)).

(** X15. Rescaling and the cast to float16 keep the 256 pixel levels apart and
    in order: a smaller level has a strictly smaller image, so the level can be
    read back from the output. *)
Theorem pixel_levels_stay_ordered (a b : Z) :
  0 <= a -> a < b -> b <= 255 ->
  (pixel_image a <? pixel_image b)%float = true.
Proof.
  intros Ha Hab Hb.
  assert ((let images := map (fun i => (Z.of_nat i, pixel_image (Z.of_nat i))) (seq 0 256) in
           forallb (fun p => forallb (fun q =>
                      implb (fst p <? fst q) (snd p <? snd q)%float) images) images)
          = true) as Hall by (vm_cast_no_check (eq_refl true)).
  cbv zeta in Hall. rewrite forallb_forall in Hall.
  assert (forall n, 0 <= n <= 255 ->
            In (n, pixel_image n)
               (map (fun i => (Z.of_nat i, pixel_image (Z.of_nat i))) (seq 0 256))) as Hin.
  { intros n Hn. apply in_map_iff. exists (Z.to_nat n).
    rewrite Z2Nat.id by lia. split; [reflexivity|]. apply in_seq. lia. }
  specialize (Hall _ (Hin a ltac:(lia))). rewrite forallb_forall in Hall.
  specialize (Hall _ (Hin b ltac:(lia))). cbn [fst snd] in Hall.
  destruct (Z.ltb_spec a b) as [_|?]; [|lia]. exact Hall.
Qed.

(** ** Instances of the properties above *)

(** [VideoResizer(crop_size=3)]: center cropping to 3 x 3. *)
Definition crop3_self (random : bool) : VideoResizer :=
  VideoResizer_init None (Some (SizeInt 3)) random "mp4" "original_width" "original_height".

(** [VideoResizer(size=2, crop_size=4, random_crop=True)]: the scalar resize
    size gives (2, 3) on the 4 x 6 sample, below the crop size. *)
Definition small_resize_self : VideoResizer :=
  VideoResizer_init (Some (SizeInt 2)) (Some (SizeInt 4)) true
                    "mp4" "original_width" "original_height".

Definition video_only_data : sample := <["mp4" := VList demo_frames]> ∅.

Definition empty_clip_data : sample :=
  <["mp4" := VList []]>
  (<["original_height" := VInts [4]]> (<["original_width" := VInts [6]]> ∅)).

Lemma random_crop_window_has_crop_size_witness :
  get_rand_reference lcg demo_self (Some (4, 6)) 4 6 7 = (Ok (2, 1), 642666333) /\
  exists out,
    crop_step demo_self (2, 1) (ramp_frame 4 6 0) = Ok out /\
    Z.of_nat (length (a_data out)) = 2 /\
    Forall (fun row => Z.of_nat (length row) = 2) (a_data out).
Proof.
  assert (get_rand_reference lcg demo_self (Some (4, 6)) 4 6 7 = (Ok (2, 1), 642666333))
    as H by (vm_compute; reflexivity).
  split; [exact H|].
  refine (random_crop_window_has_crop_size lcg demo_self (Some (4, 6)) 4 6 2 1 2 2 7
            642666333 (ramp_frame 4 6 0) H eq_refl _ _ eq_refl _); try lia.
  repeat constructor.
Defined.

Lemma center_crop_window_size_witness :
  crop_size (crop3_self false) = Some (3, 3) /\
  exists out,
    crop_step (crop3_self false) (3 / 2, 3 / 2) (ramp_frame 3 3 0) = Ok out /\
    Z.of_nat (length (a_data out)) = 0 /\
    Forall (fun row => Z.of_nat (length row) = 0) (a_data out).
Proof.
  split; [reflexivity|].
  refine (center_crop_window_size (crop3_self false) 3 3 3 3 (ramp_frame 3 3 0)
            eq_refl _ _ eq_refl _ _ _); try lia.
  repeat constructor.
Defined.

Lemma get_rand_reference_outcome_witness :
  crop_size (crop3_self true) = Some (3, 3) /\
  match get_rand_reference lcg (crop3_self true) None 3 3 7 with
  | (Ok _, _) => True /\ (2 * ((3 + 1) / 2) <= 3 /\ 0 < 3) /\ (2 * ((3 + 1) / 2) <= 3 /\ 0 < 3)
  | (Raise e, st') =>
      (e = AssertionError assert_msg /\ st' = 7 /\ ~ True) \/
      (e = ValueError "low >= high" /\ True /\
       ~ ((2 * ((3 + 1) / 2) <= 3 /\ 0 < 3) /\ (2 * ((3 + 1) / 2) <= 3 /\ 0 < 3)))
  end.
Proof.
  split; [reflexivity|].
  refine (get_rand_reference_outcome lcg (crop3_self true) None 3 3 3 3 7 eq_refl _ _); lia.
Defined.

Lemma VideoResizer_call_missing_video_key_witness :
  (∅ : sample) !! key demo_self = None /\
  VideoResizer_call lcg nearest_resize demo_self ∅ 7 =
    (Raise (KeyError "Specified key mp4 not in data"), 7).
Proof.
  split; [reflexivity|].
  exact (VideoResizer_call_missing_video_key lcg nearest_resize demo_self ∅ 7 eq_refl).
Defined.

Lemma VideoResizer_call_requires_metadata_witness :
  (crop_size (oversize_self false) <> None \/ resize_size (oversize_self false) <> None) /\
  video_only_data !! key (oversize_self false) = Some (VList demo_frames) /\
  VideoResizer_call lcg nearest_resize (oversize_self false) video_only_data 7 =
    (Raise (KeyError "original_height"), 7).
Proof.
  assert (crop_size (oversize_self false) <> None \/ resize_size (oversize_self false) <> None)
    as H by (left; discriminate).
  split; [exact H|]. split; [reflexivity|].
  exact (VideoResizer_call_requires_metadata lcg nearest_resize (oversize_self false)
           video_only_data (VList demo_frames) 7 H eq_refl (or_introl eq_refl)).
Defined.

Lemma VideoResizer_call_empty_clip_witness :
  empty_clip_data !! key demo_self = Some (VList []) /\
  VideoResizer_call lcg nearest_resize demo_self empty_clip_data 7 = (Raise IndexError, 7) /\
  VideoResizer_call lcg nearest_resize plain_self empty_clip_data 7 =
    (Raise (ValueError "need at least one array to stack"), 7).
Proof.
  split; [reflexivity|]. split.
  - exact (VideoResizer_call_empty_clip lcg nearest_resize demo_self empty_clip_data
             (VInts [4]) (VInts [6]) 4 6 7 eq_refl eq_refl eq_refl eq_refl eq_refl).
  - exact (VideoResizer_call_empty_clip lcg nearest_resize plain_self empty_clip_data
             (VInts [4]) (VInts [6]) 4 6 7 eq_refl eq_refl eq_refl eq_refl eq_refl).
Defined.

Lemma VideoResizer_call_result_witness :
  (crop_size demo_self <> None \/ resize_size demo_self <> None) /\
  VideoResizer_call lcg nearest_resize demo_self demo_data 7
    = (Ok (<["mp4" := VTensor demo_tensor]> demo_data), 642666333) /\
  exists video frames t,
    demo_data !! key demo_self = Some video /\ frames_of video = Ok frames /\ frames <> [] /\
    (<["mp4" := VTensor demo_tensor]> demo_data) !! key demo_self = Some (VTensor t) /\
    t_dtype t = Float16 /\
    length (t_frames t) = length frames /\
    (forall k, k <> key demo_self ->
       (<["mp4" := VTensor demo_tensor]> demo_data) !! k = demo_data !! k).
Proof.
  assert (crop_size demo_self <> None \/ resize_size demo_self <> None) as H1
    by (left; discriminate).
  assert (VideoResizer_call lcg nearest_resize demo_self demo_data 7
          = (Ok (<["mp4" := VTensor demo_tensor]> demo_data), 642666333)) as H2
    by (vm_compute; reflexivity).
  split; [exact H1|]. split; [exact H2|].
  exact (VideoResizer_call_result lcg nearest_resize demo_self demo_data
           (<["mp4" := VTensor demo_tensor]> demo_data) 7 642666333 H1 H2).
Defined.

Lemma VideoResizer_call_two_draws_witness :
  VideoResizer_call lcg nearest_resize
    (VideoResizer_init (Some (SizeInt 4)) (Some (SizeInt 2)) true
                       "mp4" "original_width" "original_height") demo_data 7
    = (Ok (<["mp4" := VTensor demo_tensor]> demo_data), 642666333) /\
  exists lo1 hi1 x st1 lo2 hi2 y,
    prng_draw lcg lo1 hi1 7 = (x, st1) /\ prng_draw lcg lo2 hi2 st1 = (y, 642666333).
Proof.
  assert (VideoResizer_call lcg nearest_resize
            (VideoResizer_init (Some (SizeInt 4)) (Some (SizeInt 2)) true
                               "mp4" "original_width" "original_height") demo_data 7
          = (Ok (<["mp4" := VTensor demo_tensor]> demo_data), 642666333)) as H
    by (vm_compute; reflexivity).
  split; [exact H|].
  exact (VideoResizer_call_two_draws lcg nearest_resize (Some (SizeInt 4)) (SizeInt 2)
           "mp4" "original_width" "original_height" demo_data _ 7 642666333 H).
Defined.

Lemma VideoResizer_call_asserts_on_computed_size_witness :
  get_resize_size small_resize_self (ramp_frame 4 6 0) 4 6 = Ok (Some (2, 3), (2, 3)) /\
  (2 < 4 \/ 3 < 4) /\
  VideoResizer_call lcg nearest_resize small_resize_self demo_data 7
    = (Raise (AssertionError assert_msg), 7).
Proof.
  assert (get_resize_size small_resize_self (ramp_frame 4 6 0) 4 6 = Ok (Some (2, 3), (2, 3)))
    as H by (vm_compute; reflexivity).
  assert (2 < 4 \/ 3 < 4) as Hlt by (left; lia).
  split; [exact H|]. split; [exact Hlt|].
  exact (VideoResizer_call_asserts_on_computed_size lcg nearest_resize small_resize_self
           demo_data 2 3 2 3 4 4 4 6 (VList demo_frames) (VInts [4]) (VInts [6])
           (ramp_frame 4 6 0) [ramp_frame 4 6 100] 7
           eq_refl eq_refl eq_refl eq_refl eq_refl eq_refl eq_refl eq_refl H Hlt).
Defined.

Lemma temporal_sampler_counts_witness :
  0 < 2 /\ 0 <= 5 /\
  Z.of_nat (length (selected_frames 5 2 clip3)) = Z.min 5 ((3 + 2 - 1) / 2) /\
  exists sv,
    sampled_video 5 2 clip3 = Ok sv /\
    t_dtype sv = Float32 /\
    t_frames sv =
      map (map_pixels PyNum.to_float32) (selected_frames 5 2 clip3)
      ++ replicate 3 (zeros3 (t_shape (permute_0312 clip3))).
Proof.
  assert (0 < 2) as H1 by lia. assert (0 <= 5) as H2 by lia.
  split; [exact H1|]. split; [exact H2|].
  exact (temporal_sampler_counts 5 2 clip3 H1 H2).
Defined.

Lemma apply_frame_transform_refusals_witness :
  (0 <= 0 \/ 5 = 0) /\ (-1 <= 0 \/ 5 = 0) /\ (1 <= 0 \/ 0 = 0) /\
  apply_frame_transform plain_torchvision None None 224 5 0 false None None
                        (clip3, VOther "", VOther "") tt =
    (Raise (ValueError "slice step cannot be zero"), tt) /\
  apply_frame_transform plain_torchvision None None 224 5 (-1) false None None
                        (clip3, VOther "", VOther "") tt =
    (Raise (ValueError "step must be greater than zero"), tt) /\
  apply_frame_transform plain_torchvision None None 224 0 1 false None None
                        (clip3, VOther "", VOther "") tt =
    (Raise (RuntimeError "torch.cat(): expected a non-empty list of Tensors"), tt).
Proof.
  assert (0 <= 0 \/ 5 = 0) as H0 by (left; lia).
  assert (-1 <= 0 \/ 5 = 0) as H1 by (left; lia).
  assert (1 <= 0 \/ 0 = 0) as H2 by (right; reflexivity).
  split; [exact H0|]. split; [exact H1|]. split; [exact H2|].
  split; [|split].
  - exact (apply_frame_transform_refusals plain_torchvision None None 224 false None None
             5 0 clip3 (VOther "") (VOther "") tt H0).
  - exact (apply_frame_transform_refusals plain_torchvision None None 224 false None None
             5 (-1) clip3 (VOther "") (VOther "") tt H1).
  - exact (apply_frame_transform_refusals plain_torchvision None None 224 false None None
             0 1 clip3 (VOther "") (VOther "") tt H2).
Defined.

Lemma transforms_falsy_statistic_witness :
  stat_truthy (Some (StatScalar 0)) = false /\
  transforms None None 224 false (Some (StatScalar 0)) None =
  transforms None None 224 false None None.
Proof.
  split; [reflexivity|].
  exact (proj1 (transforms_falsy_statistic None None 224 false (StatScalar 0) None eq_refl)).
Defined.

Lemma get_resize_size_short_side_exact_witness :
  1 <= 50 <= 128 /\ 1 <= 100 <= 128 /\ 100 <= 200 /\
  get_resize_size (scalar_resizer 50) (ramp_frame 1 1 0) 100 200 =
    rbind (PyNum.round (PyNum.float_of_Z 200 *
                        (PyNum.float_of_Z 50 / PyNum.float_of_Z 100))%float)
          (fun r => Ok (Some (50, r), (50, r))).
Proof.
  assert (1 <= 50 <= 128) as H1 by lia. assert (1 <= 100 <= 128) as H2 by lia.
  assert (100 <= 200) as H3 by lia.
  split; [exact H1|]. split; [exact H2|]. split; [exact H3|].
  exact (proj1 (get_resize_size_short_side_exact 50 100 200 (ramp_frame 1 1 0) H1 H2 H3)).
Defined.

Lemma pixel_levels_stay_ordered_witness :
  0 <= 254 /\ 254 < 255 /\ 255 <= 255 /\
  (pixel_image 254 <? pixel_image 255)%float = true.
Proof.
  assert (0 <= 254) as H1 by lia. assert (254 < 255) as H2 by lia.
  assert (255 <= 255) as H3 by lia.
  split; [exact H1|]. split; [exact H2|]. split; [exact H3|].
  exact (pixel_levels_stay_ordered 254 255 H1 H2 H3).
Defined.
